(** * Healthcare MCP server

    A shallow embedding of [healthcaremcp.py]: the lifespan manager
    [app_lifespan], the two resources, the five tools, the two prompts and
    the [__main__] block, followed by the properties proved about them.

    Python values are the JSON-like values the handlers receive from the
    data store and from the HTTP APIs.  A handler is a function into [io]:
    it returns the external calls it issued, in order, together with either
    its result or the exception it raised. *)

From Stdlib Require Import ZArith String Ascii List Permutation.
From stdpp Require Import base strings gmap list pretty sorting.

Set Warnings "-register-all".

(** ** Exceptions and results *)

(** [except Exception] catches the subclasses of [Exception] only;
    [KeyboardInterrupt], [asyncio.CancelledError] and [SystemExit] derive
    from [BaseException] directly. *)
Inductive exn : Type :=
| Exception (cls msg : string)
| BaseException (cls msg : string)
| SystemExit (code : Z).

(** [str(e)] *)
Definition str_exn (e : exn) : string :=
  match e with
  | Exception _ msg | BaseException _ msg => msg
  | SystemExit code => pretty code
  end.

Definition is_Exception (e : exn) : bool :=
  match e with
  | Exception _ _ => true
  | _ => false
  end.

Inductive res (A : Type) : Type :=
| Ok (a : A)
| Raise (e : exn).
Arguments Ok {A} a.
Arguments Raise {A} e.

Definition res_bind {A B} (r : res A) (k : A -> res B) : res B :=
  match r with
  | Ok a => k a
  | Raise e => Raise e
  end.

(** ** Python values *)

(** A float is carried by its [repr()] text, which determines it. *)
Inductive pyval : Type :=
| PyNone
| PyBool (b : bool)
| PyInt (z : Z)
| PyFloat (repr : string)
| PyStr (s : string)
| PyList (l : list pyval)
| PyDict (d : list (string * pyval)).

Abbreviation dict := (list (string * pyval)).

Fixpoint assoc {A} (k : string) (d : list (string * A)) : option A :=
  match d with
  | [] => None
  | (k', v) :: d' => if String.eqb k k' then Some v else assoc k d'
  end.

(** [d.get(k, default)] on a dict *)
Definition dict_get (d : dict) (k : string) (default : pyval) : pyval :=
  match assoc k d with
  | Some v => v
  | None => default
  end.

Definition type_name (v : pyval) : string :=
  match v with
  | PyNone => "NoneType"
  | PyBool _ => "bool"
  | PyInt _ => "int"
  | PyFloat _ => "float"
  | PyStr _ => "str"
  | PyList _ => "list"
  | PyDict _ => "dict"
  end.

(** Truth value of an object, as [if v] and [not v] test it.  A float is
    false when it is a zero. *)
Definition truthy (v : pyval) : bool :=
  match v with
  | PyNone => false
  | PyBool b => b
  | PyInt z => negb (z =? 0)%Z
  | PyFloat r => negb (String.eqb r "0.0" || String.eqb r "-0.0")
  | PyStr s => negb (String.eqb s "")
  | PyList l => match l with [] => false | _ => true end
  | PyDict d => match d with [] => false | _ => true end
  end.

(** ** External calls *)

Inductive query : Type :=
| Select (table columns eq_column eq_value : string)
         (order : option (string * bool))
| Insert (table : string) (row : dict).

Inductive event : Type :=
| EvPrint (line : string)
| EvCreateClient (url key : string)
| EvAsyncClient (timeout : Z) (* seconds *)
| EvAclose
| EvExecute (q : query)
| EvHttpGet (url : string) (params headers : dict)
| EvHttpPost (url : string) (body : pyval) (headers : dict).

Definition is_aclose (ev : event) : bool :=
  match ev with
  | EvAclose => true
  | _ => false
  end.

Definition is_http (ev : event) : bool :=
  match ev with
  | EvHttpGet _ _ _ | EvHttpPost _ _ _ => true
  | _ => false
  end.

(** The calls issued so far, oldest first, and the outcome. *)
Definition io (A : Type) : Type := list event * res A.

Definition ret {A} (a : A) : io A := ([], Ok a).
Definition raise {A} (e : exn) : io A := ([], Raise e).
Definition lift {A} (r : res A) : io A := ([], r).
Definition call {A} (ev : event) (r : res A) : io A := ([ev], r).

Definition bind {A B} (m : io A) (k : A -> io B) : io B :=
  match m with
  | (t, Ok a) => let (t', r) := k a in (t ++ t', r)
  | (t, Raise e) => (t, Raise e)
  end.

Notation "x <- m ;; k" := (bind m (fun x => k))
  (at level 100, m at next level, right associativity).
Notation "m ;;; k" := (bind m (fun _ => k))
  (at level 100, right associativity).

(** [try: body  except Exception as e: handler e] *)
Definition try_except {A} (body : io A) (handler : exn -> io A) : io A :=
  match body with
  | (t, Ok a) => (t, Ok a)
  | (t, Raise e) =>
      if is_Exception e
      then let (t', r) := handler e in (t ++ t', r)
      else (t, Raise e)
  end.

(** [try: body  finally: cleanup]: the cleanup runs on every exit of the
    body; an exception of the cleanup replaces the outcome of the body. *)
Definition try_finally {A} (body : io A) (cleanup : io unit) : io A :=
  let (t, r) := body in
  let (t', r') := cleanup in
  (t ++ t', match r' with Ok _ => r | Raise e => Raise e end).

Definition trace {A} (m : io A) : list event := fst m.
Definition outcome {A} (m : io A) : res A := snd m.

(** What [r] raises, if anything, is an [Exception]. *)
Definition exception_only {A} (r : res A) : Prop :=
  match r with
  | Ok _ => True
  | Raise e => is_Exception e = true
  end.

Definition contained {A} (m : io A) : Prop := exception_only (outcome m).

(** [m] does not close the HTTP client. *)
Definition leaves_open {A} (m : io A) : Prop :=
  List.filter is_aclose (trace m) = [].

(** ** The external clients *)

(** The data-store client, seen through the one operation the handlers end
    every call chain with: [.execute()], whose response carries [.data]. *)
Record Client : Type := {
  execute : query -> res (list dict)
}.

Record Response : Type := {
  raise_for_status : res unit;
  json : res pyval
}.

Record AsyncClient : Type := {
  http_get : string -> dict -> dict -> res Response;
  http_post : string -> pyval -> dict -> res Response;
  aclose : res unit
}.

(** ** Environment *)

(** [os.getenv(var)] *)
Definition getenv (env : gmap string string) (var : string) : option string :=
  env !! var.

(** Truth value of what [os.getenv] returned: [None] and the empty string
    are false. *)
Definition configured (o : option string) : bool :=
  match o with
  | Some s => negb (String.eqb s "")
  | None => false
  end.

(** ** Lifespan *)

Record AppContext : Type := {
  supabase : Client;
  http_client : AsyncClient
}.

Section Lifespan.
(** [supabase.create_client] and the [httpx.AsyncClient] constructor *)
Variable create_client : string -> string -> res Client.
Variable new_AsyncClient : Z -> res AsyncClient.

(** [app_lifespan], with the block of the [async with] that enters it as
    [body]: the body runs at the [yield]. *)
Definition app_lifespan (env : gmap string string)
    (body : AppContext -> io unit) : io unit :=
  let supabase_url := getenv env "SUPABASE_URL" in
  let supabase_key := getenv env "SUPABASE_ANON_KEY" in
  if negb (configured supabase_url) || negb (configured supabase_key)
  then raise (Exception "ValueError"
    "SUPABASE_URL and SUPABASE_ANON_KEY environment variables are required")
  else
    let url := default "" supabase_url in
    let key := default "" supabase_key in
    supabase <- call (EvCreateClient url key) (create_client url key) ;;
    http_client <- call (EvAsyncClient 30) (new_AsyncClient 30) ;;
    try_finally
      (body {| supabase := supabase; http_client := http_client |})
      (call EvAclose (aclose http_client)).
End Lifespan.

(** ** Entry point *)

Definition required_env_vars : list string :=
  ["SUPABASE_URL"; "SUPABASE_ANON_KEY"; "DOCTOR_API_KEY"; "SKIN_ANALYSIS_API_KEY"].

Definition missing_vars (env : gmap string string) : list string :=
  List.filter (fun var => negb (configured (getenv env var))) required_env_vars.

(** The [__main__] block; [mcp_run] is [mcp.run()]. *)
Definition main (env : gmap string string) (mcp_run : io unit) : io unit :=
  match missing_vars env with
  | [] => mcp_run
  | _ :: _ =>
      call (EvPrint ("Missing required environment variables: "
                     +:+ String.concat ", " (missing_vars env))) (Ok tt) ;;;
      call (EvPrint "Please set these variables before running the server.")
           (Ok tt) ;;;
      raise (SystemExit 1)
  end.

(** Exit status of the interpreter for the outcome of the main module. *)
Definition exit_status (r : res unit) : Z :=
  match r with
  | Ok _ => 0
  | Raise (SystemExit code) => code
  | Raise _ => 1
  end.

(** ** Python runtime *)

(** Strings are UTF-8 byte strings here, while Python indexes and iterates
    a [str] by code point: [chars] cuts a string into its code points. *)
Definition utf8_width (c : ascii) : nat :=
  let n := nat_of_ascii c in
  if (n <? 128)%nat then 1
  else if (n <? 224)%nat then 2
  else if (n <? 240)%nat then 3
  else 4.

Fixpoint take_bytes (n : nat) (s : string) : string * string :=
  match n, s with
  | S n', String c s' =>
      let (h, t) := take_bytes n' s' in (String c h, t)
  | _, _ => (EmptyString, s)
  end.

Fixpoint chars_fuel (fuel : nat) (s : string) : list string :=
  match fuel, s with
  | S fuel', String c _ =>
      let (h, t) := take_bytes (utf8_width c) s in
      h :: chars_fuel fuel' t
  | _, _ => []
  end.

Definition chars (s : string) : list string :=
  chars_fuel (String.length s) s.

(** [s * n] for a string [s] *)
Definition str_mul (s : string) (n : Z) : string :=
  String.concat "" (replicate (Z.to_nat n) s).

(** The messages of the built-in exceptions are those of CPython 3.11. *)
Definition AttributeError (v : pyval) (attr : string) : exn :=
  Exception "AttributeError"
    ("'" +:+ type_name v +:+ "' object has no attribute '" +:+ attr +:+ "'").

(** [v.get(k, default)] *)
Definition py_get (v : pyval) (k : string) (default : pyval) : res pyval :=
  match v with
  | PyDict d => Ok (dict_get d k default)
  | _ => Raise (AttributeError v "get")
  end.

(** [v[k]] for a string key [k] *)
Definition py_getitem (v : pyval) (k : string) : res pyval :=
  match v with
  | PyDict d =>
      match assoc k d with
      | Some x => Ok x
      | None => Raise (Exception "KeyError" ("'" +:+ k +:+ "'"))
      end
  | PyList _ =>
      Raise (Exception "TypeError"
               "list indices must be integers or slices, not str")
  | PyStr _ =>
      Raise (Exception "TypeError" "string indices must be integers")
  | _ =>
      Raise (Exception "TypeError"
               ("'" +:+ type_name v +:+ "' object is not subscriptable"))
  end.

(** [v[0]]; the keys of a JSON object are strings, so [0] is never one. *)
Definition py_index0 (v : pyval) : res pyval :=
  match v with
  | PyList (x :: _) => Ok x
  | PyList [] => Raise (Exception "IndexError" "list index out of range")
  | PyStr s =>
      match chars s with
      | c :: _ => Ok (PyStr c)
      | [] => Raise (Exception "IndexError" "string index out of range")
      end
  | PyDict _ => Raise (Exception "KeyError" "0")
  | _ =>
      Raise (Exception "TypeError"
               ("'" +:+ type_name v +:+ "' object is not subscriptable"))
  end.

(** The items of [v[:5]], as a [for] loop goes through them. *)
Definition py_slice5 (v : pyval) : res (list pyval) :=
  match v with
  | PyList l => Ok (firstn 5 l)
  | PyStr s => Ok (PyStr <$> firstn 5 (chars s))
  | PyDict _ => Raise (Exception "TypeError" "unhashable type: 'slice'")
  | _ =>
      Raise (Exception "TypeError"
               ("'" +:+ type_name v +:+ "' object is not subscriptable"))
  end.

(** The items a [for] loop over [v] goes through. *)
Definition py_iter (v : pyval) : res (list pyval) :=
  match v with
  | PyList l => Ok l
  | PyStr s => Ok (PyStr <$> chars s)
  | PyDict d => Ok ((fun kv => PyStr kv.1) <$> d)
  | _ =>
      Raise (Exception "TypeError"
               ("'" +:+ type_name v +:+ "' object is not iterable"))
  end.

(** The strings of a list that [str.join] accepts: the first item that is
    not a [str] raises. *)
Fixpoint join_items (i : nat) (items : list pyval) : res (list string) :=
  match items with
  | [] => Ok []
  | PyStr s :: items' =>
      res_bind (join_items (S i) items') (fun l => Ok (s :: l))
  | v :: _ =>
      Raise (Exception "TypeError"
               ("sequence item " +:+ pretty i +:+ ": expected str instance, "
                +:+ type_name v +:+ " found"))
  end.

(** [sep.join(items)] *)
Definition py_join (sep : string) (items : list pyval) : res string :=
  res_bind (join_items 0 items) (fun l => Ok (String.concat sep l)).

(** [[f(x) for x in l]], stopping at the first exception *)
Fixpoint map_res {A B} (f : A -> res B) (l : list A) : res (list B) :=
  match l with
  | [] => Ok []
  | x :: l' =>
      res_bind (f x) (fun y =>
      res_bind (map_res f l') (fun ys => Ok (y :: ys)))
  end.

(** [enumerate(l, i)] *)
Fixpoint enumerate {A} (i : nat) (l : list A) : list (nat * A) :=
  match l with
  | [] => []
  | x :: l' => (i, x) :: enumerate (S i) l'
  end.

(** [f"{o}"] for what [os.getenv] returned *)
Definition str_getenv (o : option string) : string :=
  match o with
  | Some s => s
  | None => "None"
  end.

(** ** Request context *)

(** The object behind [ctx.request_context.lifespan_context]: the
    [AppContext] instance that [app_lifespan] yields, or a dict that may
    bind the keys ["supabase"] and ["http_client"]. *)
Inductive LifespanContext : Type :=
| LifespanObject (app : AppContext)
| LifespanDict (supabase_entry : option Client)
               (http_client_entry : option AsyncClient).

Record RequestContext : Type := {
  lifespan_context : LifespanContext
}.

Record Context : Type := {
  request_context : RequestContext
}.

(** [lifespan_context["supabase"]]: the dataclass [AppContext] defines no
    [__getitem__]. *)
Definition getitem_supabase (l : LifespanContext) : res Client :=
  match l with
  | LifespanObject _ =>
      Raise (Exception "TypeError" "'AppContext' object is not subscriptable")
  | LifespanDict (Some c) _ => Ok c
  | LifespanDict None _ => Raise (Exception "KeyError" "'supabase'")
  end.

(** [lifespan_context["http_client"]] *)
Definition getitem_http_client (l : LifespanContext) : res AsyncClient :=
  match l with
  | LifespanObject _ =>
      Raise (Exception "TypeError" "'AppContext' object is not subscriptable")
  | LifespanDict _ (Some h) => Ok h
  | LifespanDict _ None => Raise (Exception "KeyError" "'http_client'")
  end.

(** [ctx.request_context] for the [ctx] parameter of a tool, whose default
    is [None] *)
Definition ctx_request_context (ctx : option Context) : res RequestContext :=
  match ctx with
  | Some c => Ok (request_context c)
  | None =>
      Raise (Exception "AttributeError"
               "'NoneType' object has no attribute 'request_context'")
  end.

(** ** Stand-ins for the interpreter and for the external services *)

(** [repr()] of a string without quotes, backslashes and control
    characters. *)
Definition repr_plain (s : string) : string := "'" +:+ s +:+ "'".

(** [int(float(v))] on the integers and booleans, which a float holds
    exactly when they are small. *)
Definition int_float_exact (v : pyval) : res Z :=
  match v with
  | PyInt z => Ok z
  | PyBool b => Ok (if b then 1 else 0)%Z
  | _ =>
      Raise (Exception "TypeError"
               ("float() argument must be a string or a real number, not '"
                +:+ type_name v +:+ "'"))
  end.

(** An HTTP client that answers every request with [r]. *)
Definition http_stub (r : res Response) : AsyncClient :=
  {| http_get := fun _ _ _ => r;
     http_post := fun _ _ _ => r;
     aclose := Ok tt |}.

(** A successful response whose body is [v]. *)
Definition json_response (v : pyval) : Response :=
  {| raise_for_status := Ok tt; json := Ok v |}.

(** A data-store client whose every call raises [e]. *)
Definition failing_client (e : exn) : Client :=
  {| execute := fun _ => Raise e |}.

(** Sample data for the examples. *)
Definition sample_env : gmap string string :=
  <["SUPABASE_URL" := "https://db.example"]>
    (<["SUPABASE_ANON_KEY" := "anon"]>
       (<["DOCTOR_API_KEY" := "key"]> ∅)).

Definition sample_users : list dict :=
  [ [("id", PyInt 7); ("full_name", PyStr "Bo Roe")];
    [("id", PyInt 42); ("full_name", PyStr "Ann Lee");
     ("email", PyStr "ann@example.org"); ("age", PyInt 31)] ].

Definition sample_records : list dict :=
  [ [("user_id", PyInt 42); ("created_at", PyStr "2024-01-05");
     ("condition", PyStr "eczema")];
    [("user_id", PyInt 7); ("created_at", PyStr "2024-02-11")];
    [("user_id", PyInt 42); ("created_at", PyStr "2024-03-20");
     ("condition", PyStr "acne"); ("doctor_name", PyStr "Dr. Roe")];
    [("user_id", PyInt 42); ("created_at", PyStr "2024-02-14")] ].

Definition sample_doctor (last_name : string) : pyval :=
  PyDict
    [("profile", PyDict [("first_name", PyStr "Kim");
                         ("last_name", PyStr last_name)]);
     ("specialties", PyList [PyDict [("name", PyStr "Dermatology")]]);
     ("practices",
      PyList [PyDict [("name", PyStr "Skin Clinic");
                      ("phones", PyList [PyDict [("number", PyStr "5550100")]]);
                      ("rating", PyDict [("average", PyInt 4)])]])].

(** A directory answering every search with seven practitioners. *)
Definition sample_directory : AsyncClient :=
  http_stub
    (Ok (json_response
           (PyDict [("data",
                     PyList (sample_doctor <$>
                               ["A"; "B"; "C"; "D"; "E"; "F"; "G"]))]))).

(** An environment with the four required variables. *)
Definition full_env : gmap string string :=
  <["SKIN_ANALYSIS_API_KEY" := "skin"]> sample_env.

(** A finding of the analysis service. *)
Definition sample_analysis : dict :=
  [("confidence", PyInt 87);
   ("predicted_condition", PyStr "eczema");
   ("recommendations", PyList [PyStr "Moisturize"; PyStr "See a doctor"])].

(** ** Handlers *)

Definition dq : string := String (ascii_of_nat 34) EmptyString.
Definition nl : string := String (ascii_of_nat 10) EmptyString.

Notation "'let*' x ':=' m 'in' k" := (res_bind m (fun x => k))
  (at level 10, x name, m at level 100, k at level 200).

Inductive Role : Type := User | Assistant.

(** [base.UserMessage] and [base.AssistantMessage] *)
Record Message : Type := {
  role : Role;
  content : string
}.

Definition UserMessage (s : string) : Message :=
  {| role := User; content := s |}.
Definition AssistantMessage (s : string) : Message :=
  {| role := Assistant; content := s |}.

Section Handlers.
(** [repr()] of a string, which [str()] of a list or of a dict shows its
    strings through, and [int(float(v))], a floating-point conversion,
    are left to the interpreter. *)
Variable repr_str : string -> string.
Variable int_float : pyval -> res Z.

Fixpoint py_repr (v : pyval) : string :=
  match v with
  | PyNone => "None"
  | PyBool true => "True"
  | PyBool false => "False"
  | PyInt z => pretty z
  | PyFloat r => r
  | PyStr s => repr_str s
  | PyList l => "[" +:+ String.concat ", " (map py_repr l) +:+ "]"
  | PyDict d =>
      "{" +:+ String.concat ", "
                (map (fun kv => repr_str (fst kv) +:+ ": " +:+ py_repr (snd kv)) d)
      +:+ "}"
  end.

(** [str(v)], which is what an f-string field shows *)
Definition py_str (v : pyval) : string :=
  match v with
  | PyStr s => s
  | _ => py_repr v
  end.

(** [f"{d.get(k, default)}"] *)
Definition fmt_get (d : dict) (k default : string) : string :=
  py_str (dict_get d k (PyStr default)).

(** *** Resources *)

Definition user_profile_text (user_data : dict) : string :=
  "
User Profile:
- Name: " +:+ fmt_get user_data "full_name" "N/A" +:+ "
- Email: " +:+ fmt_get user_data "email" "N/A" +:+ "
- Age: " +:+ fmt_get user_data "age" "N/A" +:+ "
- Medical History: " +:+ fmt_get user_data "medical_history" "No history recorded" +:+ "
- Allergies: " +:+ fmt_get user_data "allergies" "None reported" +:+ "
- Current Medications: " +:+ fmt_get user_data "current_medications" "None reported" +:+ "
".

Definition get_user_profile (ctx : Context) (user_id : string) : io string :=
  supabase <- lift (getitem_supabase (lifespan_context (request_context ctx))) ;;
  try_except
    (data <- (let q := Select "users" "*" "id" user_id None in
              call (EvExecute q) (execute supabase q)) ;;
     match data with
     | user_data :: _ => ret (user_profile_text user_data)
     | [] => ret ("No user found with ID: " +:+ user_id)
     end)
    (fun e => ret ("Error retrieving user profile: " +:+ str_exn e)).

Definition medical_record_text (record : dict) : string :=
  "
Date: " +:+ fmt_get record "created_at" "Unknown" +:+ "
Condition: " +:+ fmt_get record "condition" "N/A" +:+ "
Treatment: " +:+ fmt_get record "treatment" "N/A" +:+ "
Doctor: " +:+ fmt_get record "doctor_name" "N/A" +:+ "
Notes: " +:+ fmt_get record "notes" "No notes" +:+ "
---".

Definition medical_history_query (user_id : string) : query :=
  Select "medical_records" "*" "user_id" user_id (Some ("created_at", true)).

Definition get_user_medical_history (ctx : Context) (user_id : string)
    : io string :=
  supabase <- lift (getitem_supabase (lifespan_context (request_context ctx))) ;;
  try_except
    (data <- (let q := medical_history_query user_id in
              call (EvExecute q) (execute supabase q)) ;;
     match data with
     | _ :: _ =>
         let records := map medical_record_text data in
         ret ("Medical History for User " +:+ user_id +:+ ":" +:+ nl
              +:+ String.concat nl records)
     | [] => ret ("No medical history found for user: " +:+ user_id)
     end)
    (fun e => ret ("Error retrieving medical history: " +:+ str_exn e)).

(** *** Tools *)

(** The body of the loop of [search_nearby_doctors]: [doctor_info] for
    the [i]-th entry. *)
Definition doctor_info (i : nat) (doctor : pyval) : res string :=
  let* profile := py_get doctor "profile" (PyDict []) in
  let* practices := py_get doctor "practices" (PyList [PyDict []]) in
  let* practice :=
    (if truthy practices then py_index0 practices else Ok (PyDict [])) in
  let* first_name := py_get profile "first_name" (PyStr "") in
  let* last_name := py_get profile "last_name" (PyStr "") in
  let* specialties := py_get doctor "specialties" (PyList []) in
  let* items := py_iter specialties in
  let* names := map_res (fun s => py_get s "name" (PyStr "")) items in
  let* specialty := py_join ", " names in
  let* name := py_get practice "name" (PyStr "N/A") in
  let* visit_address := py_get practice "visit_address" (PyDict []) in
  let* street := py_get visit_address "street" (PyStr "N/A") in
  let* phones := py_get practice "phones" (PyList [PyDict []]) in
  let* phone := py_index0 phones in
  let* number := py_get phone "number" (PyStr "N/A") in
  let* distance := py_get practice "distance" (PyStr "N/A") in
  let* rating := py_get practice "rating" (PyDict []) in
  let* average := py_get rating "average" (PyInt 0) in
  let* stars := int_float average in
  let* website := py_get practice "website" (PyStr "No website available") in
  let* accepts := py_get practice "accepts_new_patients" PyNone in
  Ok ("
" +:+ pretty i +:+ ". Dr. " +:+ py_str first_name +:+ " " +:+ py_str last_name +:+ "
   Specialty: " +:+ specialty +:+ "
   Practice: " +:+ py_str name +:+ "
   Address: " +:+ py_str street +:+ "
   Phone: " +:+ py_str number +:+ "
   Distance: " +:+ py_str distance +:+ " miles
   Rating: " +:+ str_mul "★" stars +:+ "
   
   Website: " +:+ py_str website +:+ "
   Accepts New Patients: " +:+ (if truthy accepts then "Yes" else "No") +:+ "
").

Definition doctors_found_text (doctors : list string) : string :=
  "🏥 Nearby Doctors Found:" +:+ nl +:+ String.concat nl doctors
  +:+ nl +:+ nl +:+ "📅 Would you like to book an appointment with any of these doctors? I can help you with the appointment workflow!".

Definition doctors_url : string :=
  "https://api.betterdoctor.com/2016-05-02/doctors".

(** The [params] of the search request; a float argument is given by its
    [repr()] text. *)
Definition doctors_params (latitude longitude specialty : string)
    (radius_miles : Z) (api_key : string) : dict :=
  [("location", PyStr (latitude +:+ "," +:+ longitude +:+ ","
                       +:+ pretty radius_miles));
   ("specialty_uid", PyStr specialty);
   ("limit", PyInt 10);
   ("user_key", PyStr api_key)].

Definition search_nearby_doctors (env : gmap string string)
    (latitude longitude : string) (specialty : string) (radius_miles : Z)
    (ctx : option Context) : io string :=
  rc <- lift (ctx_request_context ctx) ;;
  http_client <- lift (getitem_http_client (lifespan_context rc)) ;;
  let api_key := getenv env "DOCTOR_API_KEY" in
  if negb (configured api_key)
  then ret "Doctor API key not configured. Please contact administrator."
  else
    try_except
      (let url := doctors_url in
       let params :=
         doctors_params latitude longitude specialty radius_miles
                        (default "" api_key) in
       response <- call (EvHttpGet url params [])
                        (http_get http_client url params []) ;;
       lift (raise_for_status response) ;;;
       data <- lift (json response) ;;
       found <- lift (py_get data "data" PyNone) ;;
       if negb (truthy found)
       then ret "No doctors found in your area. Please try expanding your search radius."
       else
         entries <- lift (let* l := py_getitem data "data" in py_slice5 l) ;;
         doctors <- lift (map_res (fun e => doctor_info (fst e) (snd e))
                                  (enumerate 1 entries)) ;;
         ret (doctors_found_text doctors))
      (fun e => ret ("Error searching for doctors: " +:+ str_exn e)).

Definition appointments_url (doctor_id : string) : string :=
  "https://api.betterdoctor.com/2016-05-02/doctors/"
  +:+ doctor_id +:+ "/appointments".

Definition availability_text (doctor_id : string) : string :=
  "
📅 Available Appointment Slots for Dr. " +:+ doctor_id +:+ ":

This Week:
- Tomorrow 2:00 PM - 15 min consultation
- Thursday 10:30 AM - 30 min consultation  
- Friday 3:45 PM - 15 min consultation

Next Week:
- Monday 9:00 AM - 30 min consultation
- Tuesday 1:15 PM - 15 min consultation
- Wednesday 4:30 PM - 30 min consultation

🔗 Book Online: [Click here to book directly](https://doctorbooking.example.com/book/" +:+ doctor_id +:+ ")
📞 Call to Book: (555) 123-4567

Would you like me to help you book one of these appointments?
".

Definition get_doctor_availability (env : gmap string string)
    (doctor_id : string) (ctx : option Context) : io string :=
  rc <- lift (ctx_request_context ctx) ;;
  http_client <- lift (getitem_http_client (lifespan_context rc)) ;;
  try_except
    (let api_key := getenv env "DOCTOR_API_KEY" in
     let url := appointments_url doctor_id in
     let headers :=
       [("Authorization", PyStr ("Bearer " +:+ str_getenv api_key))] in
     response <- call (EvHttpGet url [] headers)
                      (http_get http_client url [] headers) ;;
     ret (availability_text doctor_id))
    (fun e => ret ("Error retrieving doctor availability: " +:+ str_exn e)).

Definition analyze_skin_condition_image (env : gmap string string)
    (image_data : string) (ctx : option Context) : io string :=
  rc <- lift (ctx_request_context ctx) ;;
  http_client <- lift (getitem_http_client (lifespan_context rc)) ;;
  try_except
    (let api_key := getenv env "SKIN_ANALYSIS_API_KEY" in
     if negb (configured api_key)
     then ret "Skin analysis API not configured. Please contact administrator."
     else
       let url := "https://api.skinvision.com/v1/analyze" in
       let headers :=
         [("Authorization", PyStr ("Bearer " +:+ str_getenv api_key));
          ("Content-Type", PyStr "application/json")] in
       let payload :=
         PyDict [("image", PyStr image_data);
                 ("metadata", PyDict [("body_part", PyStr "unknown");
                                      ("image_quality", PyStr "auto_detect")])] in
       response <- call (EvHttpPost url payload headers)
                        (http_post http_client url payload headers) ;;
       lift (raise_for_status response) ;;;
       result <- lift (json response) ;;
       confidence <- lift (py_get result "confidence" (PyInt 0)) ;;
       condition <- lift (py_get result "predicted_condition" (PyStr "Unknown")) ;;
       risk_level <- lift (py_get result "risk_level" (PyStr "Unknown")) ;;
       recommendations <- lift (py_get result "recommendations" (PyList [])) ;;
       let analysis_result := "
🔬 Skin Condition Analysis Results:

📊 Analysis Confidence: " +:+ py_str confidence +:+ "%
🏷️ Potential Condition: " +:+ py_str condition +:+ "
⚠️ Risk Level: " +:+ py_str risk_level +:+ "

📋 Recommendations:
" in
       recs <- lift (py_iter recommendations) ;;
       let analysis_result :=
         fold_left (fun acc rec => acc +:+ "• " +:+ py_str rec +:+ nl)
                   recs analysis_result in
       ret (analysis_result +:+ "

⚠️ IMPORTANT DISCLAIMER: This analysis is for informational purposes only and should not replace professional medical advice. Please consult with a dermatologist for proper diagnosis and treatment.

🏥 Would you like me to help you find nearby dermatologists for a professional consultation?
"))
    (fun e => ret ("Error analyzing skin condition: " +:+ str_exn e
                   +:+ ". Please ensure the image is clear and try again.")).

Definition create_appointment_booking_resource
    (doctor_name practice_website : string) : string :=
  "
📋 Appointment Booking Options for " +:+ doctor_name +:+ ":

🌐 Online Booking:
┌─────────────────────────────────────┐
│  📅 Book Online                     │
│  " +:+ practice_website +:+ "                 │
│  ✅ Instant confirmation            │
│  ⏰ 24/7 availability               │
└─────────────────────────────────────┘

📞 Phone Booking:
┌─────────────────────────────────────┐
│  ☎️ Call Practice Directly          │
│  📞 (555) 123-4567                  │
│  🕒 Mon-Fri 8AM-5PM                 │
│  💬 Speak with receptionist         │
└─────────────────────────────────────┘

📱 Mobile App:
┌─────────────────────────────────────┐
│  📲 Download Practice App           │
│  🔍 Search " +:+ dq +:+ "[Practice Name] app" +:+ dq +:+ "    │
│  📅 Mobile-friendly booking         │
│  📬 Appointment reminders           │
└─────────────────────────────────────┘

💡 Pro Tip: Online booking is usually fastest and gives you real-time availability!
".

Definition save_user_interaction (user_id interaction_type details : string)
    (ctx : option Context) : io string :=
  rc <- lift (ctx_request_context ctx) ;;
  supabase <- lift (getitem_supabase (lifespan_context rc)) ;;
  try_except
    (let data :=
       [("user_id", PyStr user_id);
        ("interaction_type", PyStr interaction_type);
        ("details", PyStr details);
        ("timestamp", PyStr "now()")] in
     inserted <- (let q := Insert "user_interactions" data in
                  call (EvExecute q) (execute supabase q)) ;;
     match inserted with
     | _ :: _ => ret ("✅ Interaction saved successfully for user " +:+ user_id)
     | [] => ret "❌ Failed to save interaction"
     end)
    (fun e => ret ("Error saving interaction: " +:+ str_exn e)).

(** *** Prompts *)

Definition skincare_product_consultation (skin_type concerns budget : string)
    : list Message :=
  [ UserMessage ("
I'm looking for skincare product recommendations. Here are my details:
- Skin Type: " +:+ (if String.eqb skin_type "" then "Not specified" else skin_type) +:+ "
- Main Concerns: " +:+ (if String.eqb concerns "" then "General skincare" else concerns) +:+ "
- Budget Range: " +:+ (if String.eqb budget "" then "Not specified" else budget) +:+ "

Please provide personalized recommendations and let me know about purchasing options.
");
    AssistantMessage ("
I'd be happy to help you with personalized skincare recommendations! Based on your skin type and concerns, I can suggest products that would work well for you.

Here are my recommendations:

🧴 **Recommended Products:**

For your skin type and concerns, I suggest:
1. **Gentle Cleanser** - Daily use, morning and evening
2. **Hydrating Serum** - With hyaluronic acid for moisture retention  
3. **Targeted Treatment** - For your specific concerns
4. **Moisturizer** - Suitable for your skin type
5. **SPF Protection** - Daily sun protection (essential!)

💡 **Usage Tips:**
- Start with one new product at a time
- Patch test before full application
- Consistency is key for best results

🛒 **Ready to Purchase?**
Would you like to browse and purchase these recommended products from our curated skincare collection? 

Our website offers:
✅ Dermatologist-approved products
✅ Customer reviews and ratings  
✅ Detailed ingredient lists
✅ Fast shipping and easy returns

**Would you like me to direct you to our products page to explore these recommendations?**
");
    UserMessage "That sounds great! Yes, I'd like to see the products page.";
    AssistantMessage ("
Perfect! I'm redirecting you to our skincare products page where you can explore all the recommended products.

🔗 **Redirecting to Products Page...**

┌─────────────────────────────────────────────┐
│  🛒 SKINCARE PRODUCTS PAGE                  │
│                                             │
│  🌟 Personalized Recommendations           │
│  💎 Premium & Drugstore Options            │
│  📋 Detailed Product Information            │
│  ⭐ Customer Reviews & Ratings              │
│  🚚 Free Shipping on Orders $50+           │
│                                             │
│  [Click here to browse products]            │
│  👆 https://yourwebsite.com/skincare       │
└─────────────────────────────────────────────┘

You'll find your personalized recommendations highlighted on the page. Each product includes detailed descriptions, ingredients, usage instructions, and customer reviews to help you make the best choice for your skin!

Happy shopping! 🛍️✨
") ].

Definition appointment_workflow_prompt (doctor_name specialty : string)
    : list Message :=
  [ UserMessage ("I'd like to book an appointment with " +:+ doctor_name
                 +:+ " (" +:+ specialty +:+ "). Can you help me with the process?");
    AssistantMessage ("
Absolutely! I'll guide you through booking an appointment with " +:+ doctor_name +:+ ". Let me walk you through the available options:

📅 **Appointment Booking Workflow**

**Step 1: Choose Your Booking Method**
1. 🌐 Online Booking (Fastest)
2. 📞 Phone Booking (Personal Touch)  
3. 📱 Mobile App (Convenient)

**Step 2: Information You'll Need**
✅ Your insurance information
✅ Reason for visit
✅ Preferred date and time
✅ Contact information
✅ Any current medications

**Step 3: Appointment Confirmation**
You'll receive confirmation via:
- 📧 Email confirmation
- 📱 Text message reminder
- 📞 Phone call (if requested)

**Ready to proceed?** Which booking method would you prefer? I can provide direct links and detailed instructions for your chosen method.

Additionally, I can help you:
- Check the doctor's availability
- Understand what to expect during your visit
- Prepare questions for your appointment
- Find directions to the practice

How would you like to proceed?
") ].

(** *** Registered operations *)

Inductive kind : Type := Resource | Tool | Prompt.

(** A request: the operation and the arguments it is invoked with. *)
Inductive operation : Type :=
| OpGetUserProfile (user_id : string)
| OpGetUserMedicalHistory (user_id : string)
| OpSearchNearbyDoctors (latitude longitude specialty : string)
                        (radius_miles : Z)
| OpGetDoctorAvailability (doctor_id : string)
| OpAnalyzeSkinConditionImage (image_data : string)
| OpCreateAppointmentBookingResource (doctor_name practice_website : string)
| OpSaveUserInteraction (user_id interaction_type details : string)
| OpSkincareProductConsultation (skin_type concerns budget : string)
| OpAppointmentWorkflowPrompt (doctor_name specialty : string).

(** The decorator each function is registered with. *)
Definition kind_of (op : operation) : kind :=
  match op with
  | OpGetUserProfile _ | OpGetUserMedicalHistory _ => Resource
  | OpSearchNearbyDoctors _ _ _ _ | OpGetDoctorAvailability _
  | OpAnalyzeSkinConditionImage _ | OpCreateAppointmentBookingResource _ _
  | OpSaveUserInteraction _ _ _ => Tool
  | OpSkincareProductConsultation _ _ _ | OpAppointmentWorkflowPrompt _ _ =>
      Prompt
  end.

Inductive result : Type :=
| Text (s : string)
| Messages (l : list Message).

Definition text (m : io string) : io result :=
  s <- m ;; ret (Text s).

(** The call of the registered function: a resource reads the context
    with [mcp.get_context()], a tool with a [ctx] parameter is passed
    it, the other functions take their declared parameters only. *)
Definition call_operation (env : gmap string string) (ctx : Context)
    (op : operation) : io result :=
  match op with
  | OpGetUserProfile user_id => text (get_user_profile ctx user_id)
  | OpGetUserMedicalHistory user_id =>
      text (get_user_medical_history ctx user_id)
  | OpSearchNearbyDoctors latitude longitude specialty radius_miles =>
      text (search_nearby_doctors env latitude longitude specialty
                                  radius_miles (Some ctx))
  | OpGetDoctorAvailability doctor_id =>
      text (get_doctor_availability env doctor_id (Some ctx))
  | OpAnalyzeSkinConditionImage image_data =>
      text (analyze_skin_condition_image env image_data (Some ctx))
  | OpCreateAppointmentBookingResource doctor_name practice_website =>
      ret (Text (create_appointment_booking_resource doctor_name
                                                     practice_website))
  | OpSaveUserInteraction user_id interaction_type details =>
      text (save_user_interaction user_id interaction_type details (Some ctx))
  | OpSkincareProductConsultation skin_type concerns budget =>
      ret (Messages (skincare_product_consultation skin_type concerns budget))
  | OpAppointmentWorkflowPrompt doctor_name specialty =>
      ret (Messages (appointment_workflow_prompt doctor_name specialty))
  end.

(** ** A data store in memory *)

(** The data store is an external service.  [memory_store] answers a
    query from tables held in memory, the way the query reads: the rows
    of the table whose column shows as the value asked for, ordered on
    the ordering column when one is given; an insert is answered with the
    inserted row. *)
Definition val_rank (v : pyval) : nat :=
  match v with
  | PyNone => 0
  | PyBool _ => 1
  | PyInt _ => 2
  | PyFloat _ => 3
  | PyStr _ => 4
  | PyList _ => 5
  | PyDict _ => 6
  end.

(** Integers are ordered by value and strings lexicographically, as
    timestamps in ISO 8601 are; a row without the column sorts lowest. *)
Definition val_leb (a b : pyval) : bool :=
  match a, b with
  | PyInt x, PyInt y => (x <=? y)%Z
  | PyStr x, PyStr y => String.leb x y
  | _, _ => (val_rank a <=? val_rank b)%nat
  end.

Definition column (c : string) (row : dict) : pyval :=
  dict_get row c PyNone.

(** [r1] may stand before [r2] in the ordering on column [c]. *)
Definition beforeb (c : string) (desc : bool) (r1 r2 : dict) : bool :=
  if desc then val_leb (column c r2) (column c r1)
  else val_leb (column c r1) (column c r2).

Definition before (c : string) (desc : bool) (r1 r2 : dict) : Prop :=
  Is_true (beforeb c desc r1 r2).

#[global] Instance before_dec c desc r1 r2 : Decision (before c desc r1 r2) :=
  Is_true_dec (beforeb c desc r1 r2).

Definition matches (c v : string) (row : dict) : bool :=
  match assoc c row with
  | Some x => String.eqb (py_str x) v
  | None => false
  end.

Definition select_rows (rows : list dict) (eq_column eq_value : string)
    (order : option (string * bool)) : list dict :=
  let found := List.filter (matches eq_column eq_value) rows in
  match order with
  | Some (c, desc) => merge_sort (before c desc) found
  | None => found
  end.

Definition memory_store (db : list (string * list dict)) : Client :=
  {| execute := fun q =>
       match q with
       | Select table _ eq_column eq_value order =>
           Ok (select_rows (default [] (assoc table db))
                           eq_column eq_value order)
       | Insert _ row => Ok [row]
       end |}.

(** A context whose lifespan context is a dict binding the two clients. *)
Definition dict_context (c : option Client) (h : option AsyncClient)
    : Context :=
  {| request_context := {| lifespan_context := LifespanDict c h |} |}.

(** The context of a request served under [app_lifespan]. *)
Definition lifespan_request_context (app : AppContext) : Context :=
  {| request_context := {| lifespan_context := LifespanObject app |} |}.

(** [sub] occurs in [s]. *)
Definition contains (s sub : string) : Prop :=
  exists pre post, s = pre +:+ sub +:+ post.


(** ** The parts of the analysis report *)

(** The text [analyze_skin_condition_image] starts [analysis_result]
    with. *)
Definition analysis_header (confidence condition risk_level : pyval)
    : string :=
  "
🔬 Skin Condition Analysis Results:

📊 Analysis Confidence: " +:+ py_str confidence +:+ "%
🏷️ Potential Condition: " +:+ py_str condition +:+ "
⚠️ Risk Level: " +:+ py_str risk_level +:+ "

📋 Recommendations:
".

(** The line added for one recommendation. *)
Definition recommendation_line (rec : pyval) : string :=
  "• " +:+ py_str rec +:+ nl.

(** The text added after the recommendations. *)
Definition analysis_disclaimer : string :=
  "

⚠️ IMPORTANT DISCLAIMER: This analysis is for informational purposes only and should not replace professional medical advice. Please consult with a dermatologist for proper diagnosis and treatment.

🏥 Would you like me to help you find nearby dermatologists for a professional consultation?
".

(** The request of [analyze_skin_condition_image]. *)
Definition analyze_url : string := "https://api.skinvision.com/v1/analyze".

Definition analyze_headers (api_key : string) : dict :=
  [("Authorization", PyStr ("Bearer " +:+ api_key));
   ("Content-Type", PyStr "application/json")].

Definition analyze_payload (image_data : string) : pyval :=
  PyDict [("image", PyStr image_data);
          ("metadata", PyDict [("body_part", PyStr "unknown");
                               ("image_quality", PyStr "auto_detect")])].

(** ** The client a tool reads *)

(** [ctx.request_context.lifespan_context["http_client"]], the first
    statement of the tools that call an HTTP service. *)
Definition ctx_http_client (ctx : option Context) : res AsyncClient :=
  let* rc := ctx_request_context ctx in
  getitem_http_client (lifespan_context rc).

(** ** What a computation calls *)

(** [m] makes no external call. *)
Definition silent {A} (m : io A) : Prop := trace m = [].

(** [m] makes one external call at most. *)
Definition single {A} (m : io A) : Prop := length (trace m) <= 1.

(** A call to the data store or to an HTTP service. *)
Definition is_request (ev : event) : bool :=
  match ev with
  | EvExecute _ | EvHttpGet _ _ _ | EvHttpPost _ _ _ => true
  | _ => false
  end.

(** [m] makes one call at most, to the data store or to an HTTP service,
    and nothing else. *)
Definition one_request {A} (m : io A) : Prop :=
  single m /\ forallb is_request (trace m) = true.

(** * Properties *)

(** ** Entry point and lifespan *)

Lemma missing_vars_spec (env : gmap string string) (var : string) :
  var ∈ missing_vars env <->
  var ∈ required_env_vars /\
  (getenv env var = None \/ getenv env var = Some EmptyString).
Proof.
  unfold missing_vars. rewrite !list_elem_of_In, filter_In.
  split; intros [Hreq Hmiss]; split; try assumption.
  - destruct (getenv env var) as [v|]; [|by left].
    right. unfold configured in Hmiss.
    destruct (String.eqb_spec v EmptyString); [congruence | discriminate].
  - destruct Hmiss as [-> | ->]; reflexivity.
Qed.

(** C3: when a required variable is absent from the environment, the
    entry point prints the line naming the missing variables, which are
    exactly the required ones that are unset or empty, and exits with
    status 1 without running the server. *)
Theorem main_names_missing_vars (env : gmap string string)
    (mcp_run : io unit) :
  (exists var, var ∈ required_env_vars /\ getenv env var = None) ->
  main env mcp_run =
    ([EvPrint ("Missing required environment variables: "
               +:+ String.concat ", " (missing_vars env));
      EvPrint "Please set these variables before running the server."],
     Raise (SystemExit 1))
  /\ exit_status (outcome (main env mcp_run)) = 1%Z
  /\ (forall var, var ∈ missing_vars env <->
        var ∈ required_env_vars /\
        (getenv env var = None \/ getenv env var = Some EmptyString))
  /\ ((forall var, getenv env var <> Some EmptyString) ->
      forall var, var ∈ missing_vars env <->
        var ∈ required_env_vars /\ getenv env var = None).
Proof.
  intros (var & Hreq & Habsent).
  assert (Hin : var ∈ missing_vars env)
    by (apply missing_vars_spec; auto).
  assert (Hmain : main env mcp_run =
    ([EvPrint ("Missing required environment variables: "
               +:+ String.concat ", " (missing_vars env));
      EvPrint "Please set these variables before running the server."],
     Raise (SystemExit 1))).
  { unfold main. destruct (missing_vars env) as [|v l] eqn:E.
    - inversion Hin.
    - reflexivity. }
  split; [exact Hmain|]. split; [by rewrite Hmain|].
  split; [apply missing_vars_spec|].
  intros Hnonempty v. rewrite missing_vars_spec.
  split; intros [Hr Hm]; split; try assumption.
  - destruct Hm as [Hm|Hm]; [assumption | by destruct (Hnonempty v)].
  - by left.
Qed.

Section LifespanProperties.
Variable create_client : string -> string -> res Client.
Variable new_AsyncClient : Z -> res AsyncClient.

Lemma app_lifespan_check_passes (env : gmap string string)
    (url key : string) (body : AppContext -> io unit) :
  getenv env "SUPABASE_URL" = Some url -> url <> EmptyString ->
  getenv env "SUPABASE_ANON_KEY" = Some key -> key <> EmptyString ->
  app_lifespan create_client new_AsyncClient env body =
    (supabase <- call (EvCreateClient url key) (create_client url key) ;;
     http_client <- call (EvAsyncClient 30) (new_AsyncClient 30) ;;
     try_finally
       (body {| supabase := supabase; http_client := http_client |})
       (call EvAclose (aclose http_client))).
Proof.
  intros Hu Hune Hk Hkne. unfold app_lifespan. rewrite Hu, Hk. simpl.
  destruct (String.eqb_spec url EmptyString); [contradiction|].
  destruct (String.eqb_spec key EmptyString); [contradiction|].
  reflexivity.
Qed.

(** C5: a failed configuration check raises before any client is
    constructed and the body never runs; when the check passes the
    data-store client is constructed first, then the HTTP client with
    a timeout of 30 seconds, each once, and a constructor that fails
    ends the startup there. *)
Theorem app_lifespan_initialization (env : gmap string string)
    (body : AppContext -> io unit) :
  (configured (getenv env "SUPABASE_URL") = false \/
   configured (getenv env "SUPABASE_ANON_KEY") = false ->
   app_lifespan create_client new_AsyncClient env body =
     ([], Raise (Exception "ValueError"
        "SUPABASE_URL and SUPABASE_ANON_KEY environment variables are required")))
  /\ (forall url key,
       getenv env "SUPABASE_URL" = Some url -> url <> EmptyString ->
       getenv env "SUPABASE_ANON_KEY" = Some key -> key <> EmptyString ->
       (forall e, create_client url key = Raise e ->
          app_lifespan create_client new_AsyncClient env body =
            ([EvCreateClient url key], Raise e))
       /\ (forall sb e,
            create_client url key = Ok sb ->
            new_AsyncClient 30 = Raise e ->
            app_lifespan create_client new_AsyncClient env body =
              ([EvCreateClient url key; EvAsyncClient 30], Raise e))
       /\ (forall sb hc,
            create_client url key = Ok sb ->
            new_AsyncClient 30 = Ok hc ->
            trace (app_lifespan create_client new_AsyncClient env body) =
              [EvCreateClient url key; EvAsyncClient 30]
              ++ trace (body {| supabase := sb; http_client := hc |})
              ++ [EvAclose])).
Proof.
  split.
  - intros Hfail. unfold app_lifespan.
    destruct Hfail as [-> | ->]; simpl; rewrite ?orb_true_r; reflexivity.
  - intros url key Hu Hune Hk Hkne.
    rewrite (app_lifespan_check_passes env url key body Hu Hune Hk Hkne).
    repeat split.
    + intros e ->. reflexivity.
    + intros sb e -> ->. reflexivity.
    + intros sb hc -> ->. unfold call, bind, try_finally, trace. simpl.
      destruct (body _) as [t r]. reflexivity.
Qed.

(** C4: once the context is live, whatever the body does and however
    it ends, the lifespan closes the HTTP client once, after the body;
    a fault of the body is raised again after the close. *)
Theorem app_lifespan_closes_once (env : gmap string string)
    (url key : string) (sb : Client) (hc : AsyncClient)
    (body : AppContext -> io unit) :
  getenv env "SUPABASE_URL" = Some url -> url <> EmptyString ->
  getenv env "SUPABASE_ANON_KEY" = Some key -> key <> EmptyString ->
  create_client url key = Ok sb ->
  new_AsyncClient 30 = Ok hc ->
  let live := body {| supabase := sb; http_client := hc |} in
  let run := app_lifespan create_client new_AsyncClient env body in
  trace run =
    [EvCreateClient url key; EvAsyncClient 30] ++ trace live ++ [EvAclose]
  /\ length (List.filter is_aclose (trace run)) =
     S (length (List.filter is_aclose (trace live)))
  /\ (leaves_open live ->
      length (List.filter is_aclose (trace run)) = 1)
  /\ (forall e, outcome live = Raise e -> aclose hc = Ok tt ->
      outcome run = Raise e).
Proof.
  intros Hu Hune Hk Hkne Hsb Hhc live run.
  assert (Htrace : trace run =
    [EvCreateClient url key; EvAsyncClient 30] ++ trace live ++ [EvAclose]).
  { unfold run.
    rewrite (app_lifespan_check_passes env url key body Hu Hune Hk Hkne).
    rewrite Hsb, Hhc. unfold call, bind, try_finally, trace. simpl.
    fold live. destruct live as [t r]. reflexivity. }
  assert (Hcount : length (List.filter is_aclose (trace run)) =
                   S (length (List.filter is_aclose (trace live)))).
  { rewrite Htrace. simpl. rewrite List.filter_app, length_app. simpl. lia. }
  repeat split.
  - exact Htrace.
  - exact Hcount.
  - intros Hnone. rewrite Hcount, Hnone. reflexivity.
  - intros e He Hclose. unfold run.
    rewrite (app_lifespan_check_passes env url key body Hu Hune Hk Hkne).
    rewrite Hsb, Hhc. unfold call, bind, try_finally, outcome. simpl.
    fold live. rewrite Hclose. unfold outcome in He.
    destruct live as [t r]. simpl in *. assumption.
Qed.
End LifespanProperties.


(** ** Laws of the handler monad *)

Lemma bind_lift_Ok {A B} (a : A) (k : A -> io B) :
  bind (lift (Ok a)) k = k a.
Proof. unfold bind, lift. simpl. by destruct (k a). Qed.

Lemma bind_lift_Raise {A B} (e : exn) (k : A -> io B) :
  bind (lift (Raise e)) k = ([], Raise e).
Proof. reflexivity. Qed.

Lemma bind_call_Ok {A B} (ev : event) (a : A) (k : A -> io B) :
  bind (call ev (Ok a)) k = (ev :: trace (k a), outcome (k a)).
Proof. unfold bind, call, trace, outcome. simpl. by destruct (k a). Qed.

Lemma bind_call_Raise {A B} (ev : event) (e : exn) (k : A -> io B) :
  bind (call ev (Raise e)) k = ([ev], Raise e).
Proof. reflexivity. Qed.

Lemma try_except_Ok {A} (t : list event) (a : A) (handler : exn -> io A) :
  try_except (t, Ok a) handler = (t, Ok a).
Proof. reflexivity. Qed.

Lemma try_except_caught {A} (t : list event) (e : exn) (s : exn -> A) :
  is_Exception e = true ->
  try_except (t, Raise e) (fun e => ret (s e)) = (t, Ok (s e)).
Proof. intros H. unfold try_except, ret. by rewrite H, app_nil_r. Qed.

Lemma try_except_passed {A} (t : list event) (e : exn)
    (handler : exn -> io A) :
  is_Exception e = false ->
  try_except (t, Raise e) handler = (t, Raise e).
Proof. intros H. unfold try_except. by rewrite H. Qed.

(** The statements of a handler that read the clients off the context,
    for a context built by [dict_context]. *)
Ltac read_context :=
  unfold dict_context;
  repeat first
    [ rewrite bind_lift_Ok
    | progress cbn [ctx_request_context request_context lifespan_context
                    getitem_supabase getitem_http_client] ];
  cbv zeta.

(** ** Resources *)

Lemma get_user_profile_answer (c : Client) (h : option AsyncClient)
    (user_id : string) (rows : list dict) :
  execute c (Select "users" "*" "id" user_id None) = Ok rows ->
  get_user_profile (dict_context (Some c) h) user_id =
    ([EvExecute (Select "users" "*" "id" user_id None)],
     Ok (match rows with
         | user_data :: _ => user_profile_text user_data
         | [] => "No user found with ID: " +:+ user_id
         end)).
Proof.
  intros Hq. unfold get_user_profile. read_context.
  rewrite Hq, bind_call_Ok. by destruct rows.
Qed.

Lemma get_user_medical_history_answer (c : Client) (h : option AsyncClient)
    (user_id : string) (rows : list dict) :
  execute c (medical_history_query user_id) = Ok rows ->
  get_user_medical_history (dict_context (Some c) h) user_id =
    ([EvExecute (medical_history_query user_id)],
     Ok (match rows with
         | _ :: _ =>
             "Medical History for User " +:+ user_id +:+ ":" +:+ nl
             +:+ String.concat nl (map medical_record_text rows)
         | [] => "No medical history found for user: " +:+ user_id
         end)).
Proof.
  intros Hq. unfold get_user_medical_history. read_context.
  rewrite Hq, bind_call_Ok. by destruct rows.
Qed.

Lemma fmt_get_missing (d : dict) (k default : string) :
  assoc k d = None -> fmt_get d k default = default.
Proof. intros H. unfold fmt_get, dict_get. by rewrite H. Qed.

Lemma fmt_get_str (d : dict) (k default v : string) :
  assoc k d = Some (PyStr v) -> fmt_get d k default = v.
Proof. intros H. unfold fmt_get, dict_get. by rewrite H. Qed.


Lemma append_assoc (a b c : string) : (a +:+ b) +:+ c = a +:+ b +:+ c.
Proof.
  induction a as [|x a IH]; [done|].
  change (String x ((a +:+ b) +:+ c) = String x (a +:+ b +:+ c)).
  by f_equal.
Qed.

Lemma append_nil_r (s : string) : s +:+ EmptyString = s.
Proof.
  induction s as [|x s IH]; [done|].
  change (String x (s +:+ EmptyString) = String x s). by f_equal.
Qed.

Lemma contains_intro (pre sub post : string) :
  contains (pre +:+ sub +:+ post) sub.
Proof. by exists pre, post. Qed.

Lemma contains_append_r (s sub pre : string) :
  contains s sub -> contains (pre +:+ s) sub.
Proof.
  intros (a & b & ->). exists (pre +:+ a), b. by rewrite append_assoc.
Qed.

(** C7: served under the context that [app_lifespan] yields, the two
    resources raise [TypeError] for every identifier, one with no matching
    record included: what leaves the handler is the fault and not the
    not-found text.  The data store is not asked. *)
Theorem resources_raise_for_every_user (app : AppContext) (user_id : string) :
  let ctx := lifespan_request_context app in
  let fault : res string :=
    Raise (Exception "TypeError" "'AppContext' object is not subscriptable") in
  outcome (get_user_profile ctx user_id) = fault
  /\ outcome (get_user_medical_history ctx user_id) = fault
  /\ outcome (get_user_profile ctx user_id)
     <> Ok ("No user found with ID: " +:+ user_id)
  /\ outcome (get_user_medical_history ctx user_id)
     <> Ok ("No medical history found for user: " +:+ user_id)
  /\ trace (get_user_profile ctx user_id) = []
  /\ trace (get_user_medical_history ctx user_id) = [].
Proof. repeat split; discriminate. Qed.

(** C6: served under the context that [app_lifespan] yields, the
    medical-history resource issues no query at all, whatever the data
    store holds for the user, and raises [TypeError] instead of returning
    the records. *)
Theorem medical_history_issues_no_query (app : AppContext)
    (user_id : string) :
  let run := get_user_medical_history (lifespan_request_context app) user_id in
  length (trace run) = 0
  /\ (forall ev, ev ∈ trace run -> False)
  /\ run = ([], Raise (Exception "TypeError"
                         "'AppContext' object is not subscriptable")).
Proof.
  repeat split. by intros ev ?%elem_of_nil.
Qed.

(** ** Tools *)

(** C10: whatever the context, the only external call
    [save_user_interaction] can issue is the insert, into the interaction
    log, of a record of four fields: the three arguments as given and the
    timestamp, which is the text [now()].  The tool returns its success
    text exactly when it reached the data store and the answer to the
    insert carries data. *)
Theorem save_user_interaction_record
    (user_id interaction_type details : string) (ctx : option Context) :
  let data := [("user_id", PyStr user_id);
               ("interaction_type", PyStr interaction_type);
               ("details", PyStr details);
               ("timestamp", PyStr "now()")] in
  let run := save_user_interaction user_id interaction_type details ctx in
  (forall ev, ev ∈ trace run ->
     ev = EvExecute (Insert "user_interactions" data))
  /\ (forall c h, ctx = Some (dict_context (Some c) h) ->
        trace run = [EvExecute (Insert "user_interactions" data)])
  /\ (outcome run =
        Ok ("✅ Interaction saved successfully for user " +:+ user_id)
      <-> exists c h row rows,
            ctx = Some (dict_context (Some c) h)
            /\ execute c (Insert "user_interactions" data) = Ok (row :: rows)).
Proof.
  intros data run. subst run. unfold save_user_interaction.
  destruct ctx as [[[[app|[c|] h]]]|];
    try (split; [by intros ev ?%elem_of_nil
                |split; [by intros ? ? [=]
                        |split; [by intros [=] | by intros (? & ? & ? & ? & [=] & _)]]]).
  read_context. subst data.
  destruct (execute c (Insert "user_interactions" _))
    as [[|row rows]|e] eqn:Hinsert.
  - rewrite bind_call_Ok. split; [by intros ev ->%list_elem_of_singleton|].
    split; [done|]. split.
    + simpl. intros [=].
    + intros (c' & h' & ? & ? & [= <- <-] & Hc'). congruence.
  - rewrite bind_call_Ok. split; [by intros ev ->%list_elem_of_singleton|].
    split; [done|]. split; [|done]. intros _. by exists c, h, row, rows.
  - rewrite bind_call_Raise. destruct (is_Exception e) eqn:He.
    + rewrite try_except_caught by done.
      split; [by intros ev ->%list_elem_of_singleton|].
      split; [done|]. split.
      * simpl. intros [=].
      * intros (c' & h' & ? & ? & [= <- <-] & Hc'). congruence.
    + rewrite try_except_passed by done.
      split; [by intros ev ->%list_elem_of_singleton|].
      split; [done|]. split.
      * simpl. intros [=].
      * intros (c' & h' & ? & ? & [= <- <-] & Hc'). congruence.
Qed.

(** With [DOCTOR_API_KEY] unset or empty and the HTTP client read off the
    context, the search returns its not-configured text and sends
    nothing. *)
Lemma search_nearby_doctors_not_configured (env : gmap string string)
    (latitude longitude specialty : string) (radius_miles : Z)
    (c : option Client) (h : AsyncClient) :
  configured (getenv env "DOCTOR_API_KEY") = false ->
  search_nearby_doctors env latitude longitude specialty radius_miles
    (Some (dict_context c (Some h))) =
  ([], Ok "Doctor API key not configured. Please contact administrator.").
Proof.
  intros Hkey. unfold search_nearby_doctors. read_context. by rewrite Hkey.
Qed.

(** With [SKIN_ANALYSIS_API_KEY] unset or empty and the HTTP client read
    off the context, the analysis returns its not-configured text and
    sends nothing. *)
Lemma analyze_skin_condition_image_not_configured (env : gmap string string)
    (image_data : string) (c : option Client) (h : AsyncClient) :
  configured (getenv env "SKIN_ANALYSIS_API_KEY") = false ->
  analyze_skin_condition_image env image_data (Some (dict_context c (Some h))) =
  ([], Ok "Skin analysis API not configured. Please contact administrator.").
Proof.
  intros Hkey. unfold analyze_skin_condition_image. read_context.
  by rewrite Hkey.
Qed.

(** C2: [get_doctor_availability] makes no test of the API key.  With
    [DOCTOR_API_KEY] absent from the environment it sends its request all
    the same, authorized as [Bearer None], and answers with the
    appointment slots when the request returns. *)
Theorem get_doctor_availability_without_key (env : gmap string string)
    (doctor_id : string) (c : option Client) (h : AsyncClient) :
  getenv env "DOCTOR_API_KEY" = None ->
  let run := get_doctor_availability env doctor_id
               (Some (dict_context c (Some h))) in
  let request := EvHttpGet (appointments_url doctor_id) []
                           [("Authorization", PyStr "Bearer None")] in
  trace run = [request]
  /\ List.filter is_http (trace run) <> []
  /\ (forall response,
        http_get h (appointments_url doctor_id) []
                 [("Authorization", PyStr "Bearer None")] = Ok response ->
        run = ([request], Ok (availability_text doctor_id))).
Proof.
  intros Hkey run request. subst run request.
  unfold get_doctor_availability. read_context. rewrite Hkey.
  cbn [str_getenv].
  change ("Bearer " +:+ "None") with "Bearer None".
  destruct (http_get h _ _ _) as [response|e] eqn:Hget.
  - rewrite bind_call_Ok. split; [done|]. split; [done|]. done.
  - rewrite bind_call_Raise. destruct (is_Exception e) eqn:He.
    + rewrite try_except_caught by done.
      split; [done|]. split; [done|]. intros ? [=].
    + rewrite try_except_passed by done.
      split; [done|]. split; [done|]. intros ? [=].
Qed.

(** C1: under the context that [app_lifespan] yields, an [AppContext]
    instance, every handler that reads a client off the context raises
    [TypeError] at that statement, which stands before its [try]: the
    exception leaves the handler, and no external call was made. *)
Theorem context_lookup_escapes_handler (env : gmap string string)
    (app : AppContext) :
  let ctx := lifespan_request_context app in
  let fault : io string :=
    ([], Raise (Exception "TypeError"
                          "'AppContext' object is not subscriptable")) in
  (forall user_id, get_user_profile ctx user_id = fault)
  /\ (forall user_id, get_user_medical_history ctx user_id = fault)
  /\ (forall latitude longitude specialty radius_miles,
        search_nearby_doctors env latitude longitude specialty radius_miles
                              (Some ctx) = fault)
  /\ (forall doctor_id, get_doctor_availability env doctor_id (Some ctx) = fault)
  /\ (forall image_data,
        analyze_skin_condition_image env image_data (Some ctx) = fault)
  /\ (forall user_id interaction_type details,
        save_user_interaction user_id interaction_type details (Some ctx)
        = fault).
Proof. repeat split. Qed.

(** C9: a prompt returns the same messages under every environment and
    every context, makes no external call and raises nothing: its result
    is a function of its arguments alone. *)
Theorem prompts_are_pure (env env' : gmap string string) (ctx ctx' : Context)
    (op : operation) :
  kind_of op = Prompt ->
  call_operation env ctx op = call_operation env' ctx' op
  /\ exists messages,
       call_operation env ctx op = ([], Ok (Messages messages)).
Proof.
  intros Hkind. destruct op; try discriminate Hkind;
    (split; [reflexivity | eexists; reflexivity]).
Qed.

Lemma map_res_length {A B} (f : A -> res B) (l : list A) (ys : list B) :
  map_res f l = Ok ys -> length ys = length l.
Proof.
  revert ys. induction l as [|x l IH]; intros ys; simpl.
  - by intros [= <-].
  - destruct (f x) as [y|]; [|done]. simpl.
    destruct (map_res f l) as [ys'|]; [|done]. simpl.
    intros [= <-]. simpl. f_equal. by apply IH.
Qed.

Lemma enumerate_length {A} (i : nat) (l : list A) :
  length (enumerate i l) = length l.
Proof. revert i. induction l; intros i; simpl; [done | by f_equal]. Qed.

Lemma map_res_enumerate_lookup {A B} (f : nat -> A -> res B) (start : nat)
    (l : list A) (ys : list B) :
  map_res (fun e => f (fst e) (snd e)) (enumerate start l) = Ok ys ->
  forall i x, l !! i = Some x ->
  exists y, ys !! i = Some y /\ f (start + i) x = Ok y.
Proof.
  revert start ys. induction l as [|a l IH]; intros start ys; simpl.
  - intros _ i x Hi. by rewrite lookup_nil in Hi.
  - destruct (f start a) as [y|] eqn:Hy; [|done]. simpl.
    destruct (map_res _ (enumerate (S start) l)) as [ys'|] eqn:Hys; [|done].
    simpl. intros [= <-] [|i] x Hi; simpl in *.
    + injection Hi as <-. exists y. by rewrite Nat.add_0_r.
    + destruct (IH _ _ Hys i x Hi) as (y' & ? & ?). exists y'.
      by rewrite Nat.add_succ_r.
Qed.

Lemma contains_append_l (s sub post : string) :
  contains s sub -> contains (s +:+ post) sub.
Proof.
  intros (a & b & ->). exists a, (b +:+ post). by rewrite !append_assoc.
Qed.

Lemma contains_concat (sep : string) (l : list string) (i : nat) (x : string) :
  l !! i = Some x -> contains (String.concat sep l) x.
Proof.
  revert i. induction l as [|y l IH]; intros i Hi; [by destruct i|].
  destruct l as [|z l].
  - destruct i as [|i]; [|by destruct i]. injection Hi as ->.
    exists EmptyString, EmptyString. by rewrite append_nil_r.
  - change (String.concat sep (y :: z :: l))
      with (y +:+ sep +:+ String.concat sep (z :: l)).
    destruct i as [|i].
    + injection Hi as ->. by exists EmptyString, (sep +:+ String.concat sep (z :: l)).
    + do 2 apply contains_append_r. by apply (IH i).
Qed.

(** C8: when the directory answers the search with a list of
    practitioners, the text of [search_nearby_doctors] is made of the first
    five entries of the list and of nothing after them: one numbered entry
    for each, in the order of the response, so at most five. *)
Theorem search_nearby_doctors_first_five (env : gmap string string)
    (latitude longitude specialty : string) (radius_miles : Z)
    (c : option Client) (h : AsyncClient) (key : string)
    (response : Response) (d : dict) (ds : list pyval) :
  getenv env "DOCTOR_API_KEY" = Some key -> key <> EmptyString ->
  http_get h doctors_url
    (doctors_params latitude longitude specialty radius_miles key) []
    = Ok response ->
  raise_for_status response = Ok tt ->
  json response = Ok (PyDict d) ->
  assoc "data" d = Some (PyList ds) ->
  let shown := firstn 5 ds in
  let rendered :=
    map_res (fun e => doctor_info (fst e) (snd e)) (enumerate 1 shown) in
  outcome (search_nearby_doctors env latitude longitude specialty radius_miles
             (Some (dict_context c (Some h)))) =
    match shown with
    | [] =>
        Ok "No doctors found in your area. Please try expanding your search radius."
    | _ :: _ =>
        match rendered with
        | Ok doctors => Ok (doctors_found_text doctors)
        | Raise e =>
            if is_Exception e
            then Ok ("Error searching for doctors: " +:+ str_exn e)
            else Raise e
        end
    end
  /\ length shown <= 5
  /\ (forall doctors, rendered = Ok doctors ->
        length doctors = Nat.min 5 (length ds)
        /\ forall i doctor, ds !! i = Some doctor -> i < 5 ->
             exists entry, doctors !! i = Some entry
                           /\ doctor_info (S i) doctor = Ok entry)
  /\ (forall doctors,
        doctors_found_text doctors =
          "🏥 Nearby Doctors Found:" +:+ nl +:+ String.concat nl doctors
          +:+ nl +:+ nl +:+ "📅 Would you like to book an appointment with any of these doctors? I can help you with the appointment workflow!")
  /\ (forall doctors, rendered = Ok doctors ->
        forall i entry, doctors !! i = Some entry ->
          contains (doctors_found_text doctors) entry)
  /\ (forall n doctor entry,
        doctor_info n doctor = Ok entry ->
        exists profile practices practice first_name last_name specialties
               items names specialty name visit_address street phones phone
               number distance rating average stars website accepts,
          py_get doctor "profile" (PyDict []) = Ok profile
          /\ py_get doctor "practices" (PyList [PyDict []]) = Ok practices
          /\ (if truthy practices then py_index0 practices
              else Ok (PyDict [])) = Ok practice
          /\ py_get profile "first_name" (PyStr EmptyString) = Ok first_name
          /\ py_get profile "last_name" (PyStr EmptyString) = Ok last_name
          /\ py_get doctor "specialties" (PyList []) = Ok specialties
          /\ py_iter specialties = Ok items
          /\ map_res (fun s => py_get s "name" (PyStr EmptyString)) items
             = Ok names
          /\ py_join ", " names = Ok specialty
          /\ py_get practice "name" (PyStr "N/A") = Ok name
          /\ py_get practice "visit_address" (PyDict []) = Ok visit_address
          /\ py_get visit_address "street" (PyStr "N/A") = Ok street
          /\ py_get practice "phones" (PyList [PyDict []]) = Ok phones
          /\ py_index0 phones = Ok phone
          /\ py_get phone "number" (PyStr "N/A") = Ok number
          /\ py_get practice "distance" (PyStr "N/A") = Ok distance
          /\ py_get practice "rating" (PyDict []) = Ok rating
          /\ py_get rating "average" (PyInt 0) = Ok average
          /\ int_float average = Ok stars
          /\ py_get practice "website" (PyStr "No website available")
             = Ok website
          /\ py_get practice "accepts_new_patients" PyNone = Ok accepts
          /\ entry = "
" +:+ pretty n +:+ ". Dr. " +:+ py_str first_name +:+ " " +:+ py_str last_name +:+ "
   Specialty: " +:+ specialty +:+ "
   Practice: " +:+ py_str name +:+ "
   Address: " +:+ py_str street +:+ "
   Phone: " +:+ py_str number +:+ "
   Distance: " +:+ py_str distance +:+ " miles
   Rating: " +:+ str_mul "★" stars +:+ "
   
   Website: " +:+ py_str website +:+ "
   Accepts New Patients: " +:+ (if truthy accepts then "Yes" else "No") +:+ "
").
Proof.
  intros Hkey Hne Hget Hstatus Hjson Hdata shown rendered.
  split; [|split; [|split; [|split; [|split; [|]]]]].
  - unfold search_nearby_doctors. read_context. rewrite Hkey.
    cbn [configured default from_option id].
    destruct (String.eqb_spec key EmptyString) as [|_]; [done|].
    cbn [negb]. rewrite Hget, bind_call_Ok, Hstatus, bind_lift_Ok, Hjson.
    rewrite bind_lift_Ok. cbn [py_get py_getitem]. unfold dict_get.
    rewrite Hdata, bind_lift_Ok.
    destruct ds as [|d0 ds']; [done|].
    cbn [truthy negb res_bind py_slice5]. rewrite bind_lift_Ok.
    fold shown. fold rendered.
    destruct rendered as [doctors|e]; cbn [firstn] in *.
    + by rewrite bind_lift_Ok.
    + rewrite bind_lift_Raise. unfold outcome, try_except. cbn [snd].
      destruct (is_Exception e); [|done]. cbn [ret]. by rewrite app_nil_r.
  - unfold shown. rewrite length_take. lia.
  - intros doctors Hdoctors. split.
    + rewrite (map_res_length _ _ _ Hdoctors), enumerate_length.
      unfold shown. by rewrite length_take.
    + intros i doctor Hi Hlt.
      destruct (map_res_enumerate_lookup doctor_info 1 shown doctors Hdoctors
                  i doctor) as (entry & ? & ?); [|by exists entry].
      unfold shown. by rewrite lookup_take_lt.
  - reflexivity.
  - intros doctors _ i entry Hentry. unfold doctors_found_text.
    do 2 apply contains_append_r. apply contains_append_l.
    by apply contains_concat with i.
  - intros n doctor entry Hinfo. unfold doctor_info in Hinfo.
    repeat match type of Hinfo with
           | res_bind ?r _ = Ok _ =>
               let E := fresh "E" in
               destruct r eqn:E;
               [cbn [res_bind] in Hinfo | discriminate Hinfo]
           end.
    injection Hinfo as <-.
    do 21 eexists. repeat split; first [eassumption | reflexivity].
Qed.

(** ** What the [try] blocks contain *)

Create HintDb exn.

Lemma exception_only_bind {A B} (r : res A) (k : A -> res B) :
  exception_only r -> (forall a, exception_only (k a)) ->
  exception_only (res_bind r k).
Proof. destruct r; simpl; auto. Qed.

Lemma py_get_exn (v : pyval) (k : string) (default : pyval) :
  exception_only (py_get v k default).
Proof. by destruct v. Qed.

Lemma py_getitem_exn (v : pyval) (k : string) : exception_only (py_getitem v k).
Proof. destruct v; simpl; try done. by destruct (assoc k d). Qed.

Lemma py_index0_exn (v : pyval) : exception_only (py_index0 v).
Proof.
  destruct v as [| | | |s|[|x l]|]; simpl; try done. by destruct (chars s).
Qed.

Lemma py_slice5_exn (v : pyval) : exception_only (py_slice5 v).
Proof. by destruct v. Qed.

Lemma py_iter_exn (v : pyval) : exception_only (py_iter v).
Proof. by destruct v. Qed.

Lemma join_items_exn (i : nat) (items : list pyval) :
  exception_only (join_items i items).
Proof.
  revert i. induction items as [|v items IH]; intros i; simpl; [done|].
  destruct v; try done. by apply exception_only_bind.
Qed.

Lemma py_join_exn (sep : string) (items : list pyval) :
  exception_only (py_join sep items).
Proof. apply exception_only_bind; [apply join_items_exn | done]. Qed.

Lemma map_res_exn {A B} (f : A -> res B) (l : list A) :
  (forall x, exception_only (f x)) -> exception_only (map_res f l).
Proof.
  intros Hf. induction l as [|x l IH]; simpl; [done|].
  apply exception_only_bind; [apply Hf|]. intros y.
  by apply exception_only_bind.
Qed.

#[local] Hint Resolve py_get_exn py_getitem_exn py_index0_exn py_slice5_exn
  py_iter_exn py_join_exn : exn.

Lemma doctor_info_exn (i : nat) (doctor : pyval) :
  (forall v, exception_only (int_float v)) ->
  exception_only (doctor_info i doctor).
Proof.
  intros Hfloat. unfold doctor_info.
  repeat first
    [ exact I
    | apply Hfloat
    | solve [auto with exn]
    | apply map_res_exn; intros ?
    | apply exception_only_bind; [|intros ?]
    | match goal with
      | |- exception_only (if ?b then _ else _) => destruct b
      end ].
Qed.

Lemma contained_ret {A} (a : A) : contained (ret a).
Proof. exact I. Qed.

Lemma contained_lift {A} (r : res A) : exception_only r -> contained (lift r).
Proof. done. Qed.

Lemma contained_call {A} (ev : event) (r : res A) :
  exception_only r -> contained (call ev r).
Proof. done. Qed.

Lemma contained_bind {A B} (m : io A) (k : A -> io B) :
  contained m -> (forall a, contained (k a)) -> contained (bind m k).
Proof.
  destruct m as [t [a|e]]; unfold contained, outcome, bind; simpl.
  - intros _ Hk. specialize (Hk a). by destruct (k a).
  - auto.
Qed.

Lemma contained_bind_call {A B} (ev : event) (r : res A) (k : A -> io B) :
  match r with
  | Ok a => contained (k a)
  | Raise e => is_Exception e = true
  end ->
  contained (bind (call ev r) k).
Proof.
  destruct r as [a|e]; [|done]. rewrite bind_call_Ok. by unfold contained.
Qed.

Lemma try_except_returns {A} (body : io A) (s : exn -> A) :
  contained body ->
  exists a, outcome (try_except body (fun e => ret (s e))) = Ok a.
Proof.
  destruct body as [t [a|e]]; unfold contained, outcome; simpl.
  - by exists a.
  - intros ->. by exists (s e).
Qed.

Lemma text_returns (m : io string) :
  (exists s, outcome m = Ok s) ->
  exists s, outcome (text m) = Ok (Text s).
Proof.
  destruct m as [t r]. unfold outcome, text, bind, ret. simpl.
  intros [s ->]. by exists s.
Qed.

(** X22: past the statements that read the clients off the context, a
    resource or a tool returns a text whatever [Exception] the clients
    raise: every fault of that class raised within a [try] is turned into a
    text. *)
Lemma handlers_contain_exceptions (env : gmap string string) (c : Client)
    (h : AsyncClient) (op : operation) :
  (forall v, exception_only (int_float v)) ->
  (forall q, exception_only (execute c q)) ->
  (forall url params headers,
     match http_get h url params headers with
     | Ok response =>
         exception_only (raise_for_status response)
         /\ exception_only (json response)
     | Raise e => is_Exception e = true
     end) ->
  (forall url body headers,
     match http_post h url body headers with
     | Ok response =>
         exception_only (raise_for_status response)
         /\ exception_only (json response)
     | Raise e => is_Exception e = true
     end) ->
  kind_of op <> Prompt ->
  exists s,
    outcome (call_operation env (dict_context (Some c) (Some h)) op)
    = Ok (Text s).
Proof.
  intros Hfloat Hexec Hget Hpost Hkind.
  destruct op; try (by destruct Hkind); cbn [call_operation];
    try (by eexists); apply text_returns.
  - unfold get_user_profile. read_context. apply try_except_returns.
    apply contained_bind; [by apply contained_call|]. by intros [|].
  - unfold get_user_medical_history. read_context. apply try_except_returns.
    apply contained_bind; [by apply contained_call|]. by intros [|].
  - unfold search_nearby_doctors. read_context.
    destruct (negb _); [by eexists|]. apply try_except_returns.
    apply contained_bind_call.
    match goal with |- match http_get h ?u ?p ?hd with _ => _ end =>
      specialize (Hget u p hd); destruct (http_get h u p hd) as [response|e]
    end; [|done].
    destruct Hget as [Hstatus Hjson].
    apply contained_bind; [by apply contained_lift|]. intros _.
    apply contained_bind; [by apply contained_lift|]. intros data.
    apply contained_bind; [apply contained_lift; auto with exn|]. intros found.
    destruct (negb _); [done|].
    apply contained_bind.
    { apply contained_lift, exception_only_bind; auto with exn. }
    intros entries. apply contained_bind; [|done].
    apply contained_lift, map_res_exn. intros ?. by apply doctor_info_exn.
  - unfold get_doctor_availability. read_context. apply try_except_returns.
    apply contained_bind_call.
    match goal with |- match http_get h ?u ?p ?hd with _ => _ end =>
      specialize (Hget u p hd); by destruct (http_get h u p hd)
    end.
  - unfold analyze_skin_condition_image. read_context.
    apply try_except_returns. destruct (negb _); [done|].
    apply contained_bind_call.
    match goal with |- match http_post h ?u ?p ?hd with _ => _ end =>
      specialize (Hpost u p hd); destruct (http_post h u p hd) as [response|e]
    end; [|done].
    destruct Hpost as [Hstatus Hjson].
    repeat first
      [ apply contained_ret
      | apply contained_bind; [|intros ?]
      | apply contained_lift; auto with exn ].
  - unfold save_user_interaction. read_context. apply try_except_returns.
    apply contained_bind; [by apply contained_call|]. by intros [|].
Qed.

(** ** The handlers leave the HTTP client open *)

Lemma leaves_open_ret {A} (a : A) : leaves_open (ret a).
Proof. done. Qed.

Lemma leaves_open_lift {A} (r : res A) : leaves_open (lift r).
Proof. done. Qed.

Lemma leaves_open_call {A} (ev : event) (r : res A) :
  is_aclose ev = false -> leaves_open (call ev r).
Proof. intros H. unfold leaves_open, call, trace. simpl. by rewrite H. Qed.

Lemma leaves_open_bind {A B} (m : io A) (k : A -> io B) :
  leaves_open m -> (forall a, leaves_open (k a)) -> leaves_open (bind m k).
Proof.
  destruct m as [t [a|e]]; unfold leaves_open, bind, trace; simpl; [|done].
  intros Ht Hk. specialize (Hk a). destruct (k a) as [t' r]. simpl in *.
  by rewrite List.filter_app, Ht, Hk.
Qed.

Lemma leaves_open_try_except {A} (body : io A) (s : exn -> A) :
  leaves_open body -> leaves_open (try_except body (fun e => ret (s e))).
Proof.
  destruct body as [t [a|e]]; unfold leaves_open, try_except, trace; simpl;
    [done|].
  destruct (is_Exception e); simpl; [|done]. by rewrite app_nil_r.
Qed.

Ltac solve_leaves_open :=
  repeat first
    [ apply leaves_open_ret
    | apply leaves_open_lift
    | apply leaves_open_call; reflexivity
    | apply leaves_open_try_except
    | apply leaves_open_bind; [|intros ?]
    | match goal with
      | |- leaves_open (if ?b then _ else _) => destruct b
      | |- leaves_open (match ?x with _ => _ end) => destruct x
      end
    | progress cbv zeta ].

(** No operation closes the HTTP client, whatever the context, the
    clients and the arguments. *)
Lemma call_operation_leaves_open (env : gmap string string) (ctx : Context)
    (op : operation) :
  leaves_open (call_operation env ctx op).
Proof.
  destruct op; cbn [call_operation]; unfold text;
    unfold get_user_profile, get_user_medical_history, search_nearby_doctors,
      get_doctor_availability, analyze_skin_condition_image,
      save_user_interaction;
    solve_leaves_open.
Qed.

(** * Further properties *)

(** ** Entry point and lifespan *)

(** X1: with the four required variables set and not empty, the entry
    point prints nothing and runs the server. *)
Theorem main_runs_when_configured (env : gmap string string)
    (mcp_run : io unit) :
  (forall var, var ∈ required_env_vars ->
     configured (getenv env var) = true) ->
  missing_vars env = [] /\ main env mcp_run = mcp_run.
Proof.
  intros Hall.
  assert (Hnone : missing_vars env = []).
  { unfold missing_vars, required_env_vars. simpl.
    rewrite !Hall; [done|..]; apply list_elem_of_In; simpl; auto 6. }
  split; [exact Hnone|]. unfold main. by rewrite Hnone.
Qed.

(** X2: a required variable that is set to the empty string counts as
    missing: it is named, the server is not run and the exit status is 1. *)
Theorem main_rejects_empty_value (env : gmap string string)
    (mcp_run : io unit) (var : string) :
  var ∈ required_env_vars ->
  getenv env var = Some EmptyString ->
  var ∈ missing_vars env
  /\ trace (main env mcp_run) =
       [EvPrint ("Missing required environment variables: "
                 +:+ String.concat ", " (missing_vars env));
        EvPrint "Please set these variables before running the server."]
  /\ exit_status (outcome (main env mcp_run)) = 1%Z.
Proof.
  intros Hreq Hempty.
  assert (Hin : var ∈ missing_vars env) by (apply missing_vars_spec; auto).
  split; [exact Hin|]. unfold main.
  destruct (missing_vars env) as [|v l]; [inversion Hin | done].
Qed.

Lemma List_filter_sublist {A} (f : A -> bool) (l : list A) :
  sublist (List.filter f l) l.
Proof.
  induction l as [|x l IH]; simpl; [constructor|].
  destruct (f x); by constructor.
Qed.

(** X3: the variables named as missing come in the order of the list of
    required variables, each once. *)
Theorem missing_vars_in_order (env : gmap string string) :
  sublist (missing_vars env) required_env_vars /\ NoDup (missing_vars env).
Proof.
  assert (Hsub : sublist (missing_vars env) required_env_vars)
    by apply List_filter_sublist.
  split; [exact Hsub|]. eapply sublist_NoDup; [|exact Hsub].
  apply (bool_decide_unpack _). by vm_compute.
Qed.

Section LifespanFurther.
Variable create_client : string -> string -> res Client.
Variable new_AsyncClient : Z -> res AsyncClient.

(** X4: started from the entry point, the lifespan never fails its own
    check: when the entry point lets the server run, the two data-store
    variables are set and the lifespan goes on to construct the clients
    from them. *)
Theorem main_then_lifespan (env : gmap string string)
    (body : AppContext -> io unit) :
  missing_vars env = [] ->
  exists url key,
    getenv env "SUPABASE_URL" = Some url
    /\ getenv env "SUPABASE_ANON_KEY" = Some key
    /\ main env (app_lifespan create_client new_AsyncClient env body) =
         (supabase <- call (EvCreateClient url key) (create_client url key) ;;
          http_client <- call (EvAsyncClient 30) (new_AsyncClient 30) ;;
          try_finally
            (body {| supabase := supabase; http_client := http_client |})
            (call EvAclose (aclose http_client))).
Proof.
  intros Hnone.
  assert (Hset : forall var, var ∈ required_env_vars ->
                   exists v, getenv env var = Some v /\ v <> EmptyString).
  { intros var Hreq.
    destruct (getenv env var) as [v|] eqn:Hv.
    - exists v. split; [done|]. intros ->.
      assert (Hin : var ∈ missing_vars env)
        by (apply missing_vars_spec; auto).
      rewrite Hnone in Hin. inversion Hin.
    - assert (Hin : var ∈ missing_vars env)
        by (apply missing_vars_spec; auto).
      rewrite Hnone in Hin. inversion Hin. }
  destruct (Hset "SUPABASE_URL") as (url & Hurl & Hune);
    [apply list_elem_of_In; by left|].
  destruct (Hset "SUPABASE_ANON_KEY") as (key & Hkey & Hkne);
    [apply list_elem_of_In; right; by left|].
  exists url, key. split; [done|]. split; [done|].
  unfold main. rewrite Hnone.
  by apply app_lifespan_check_passes.
Qed.

(** X5: when closing the HTTP client raises, that exception is the
    outcome of the lifespan, whether the body returned or raised. *)
Theorem app_lifespan_close_failure (env : gmap string string)
    (url key : string) (sb : Client) (hc : AsyncClient)
    (body : AppContext -> io unit) (e : exn) :
  getenv env "SUPABASE_URL" = Some url -> url <> EmptyString ->
  getenv env "SUPABASE_ANON_KEY" = Some key -> key <> EmptyString ->
  create_client url key = Ok sb ->
  new_AsyncClient 30 = Ok hc ->
  aclose hc = Raise e ->
  outcome (app_lifespan create_client new_AsyncClient env body) = Raise e.
Proof.
  intros Hu Hune Hk Hkne Hsb Hhc Hclose.
  rewrite (app_lifespan_check_passes _ _ env url key body Hu Hune Hk Hkne).
  rewrite Hsb, Hhc. unfold call, bind, try_finally, outcome. simpl.
  rewrite Hclose. by destruct (body _).
Qed.
End LifespanFurther.

(** ** Resources and the interaction log *)

(** X6: when the data store raises, a resource has sent its one query and
    returns its error text with the message of the exception, if the
    exception is an [Exception]; any other exception leaves the handler. *)
Theorem resources_report_store_failure (c : Client) (h : option AsyncClient)
    (user_id : string) (e e' : exn) :
  execute c (Select "users" "*" "id" user_id None) = Raise e ->
  execute c (medical_history_query user_id) = Raise e' ->
  get_user_profile (dict_context (Some c) h) user_id =
    ([EvExecute (Select "users" "*" "id" user_id None)],
     if is_Exception e
     then Ok ("Error retrieving user profile: " +:+ str_exn e)
     else Raise e)
  /\ get_user_medical_history (dict_context (Some c) h) user_id =
       ([EvExecute (medical_history_query user_id)],
        if is_Exception e'
        then Ok ("Error retrieving medical history: " +:+ str_exn e')
        else Raise e').
Proof.
  intros Hprofile Hhistory. split.
  - unfold get_user_profile. read_context.
    rewrite Hprofile, bind_call_Raise. destruct (is_Exception e) eqn:He.
    + by rewrite try_except_caught.
    + by rewrite try_except_passed.
  - unfold get_user_medical_history. read_context.
    rewrite Hhistory, bind_call_Raise. destruct (is_Exception e') eqn:He.
    + by rewrite try_except_caught.
    + by rewrite try_except_passed.
Qed.

(** X7: when several rows answer the profile query, the profile shown is
    that of the first row; the other rows do not show. *)
Theorem get_user_profile_first_row (c : Client) (h : option AsyncClient)
    (user_id : string) (row : dict) (rows : list dict) :
  execute c (Select "users" "*" "id" user_id None) = Ok (row :: rows) ->
  get_user_profile (dict_context (Some c) h) user_id =
    ([EvExecute (Select "users" "*" "id" user_id None)],
     Ok (user_profile_text row)).
Proof. intros Hq. by rewrite (get_user_profile_answer c h user_id _ Hq). Qed.

(** X8: the three outcomes of [save_user_interaction] once it has the
    data-store client: the success text when the answer to the insert
    carries data, the failure text when it carries none, the error text
    when the insert raises an [Exception]. *)
Theorem save_user_interaction_outcomes (c : Client) (h : option AsyncClient)
    (user_id interaction_type details : string) :
  outcome (save_user_interaction user_id interaction_type details
             (Some (dict_context (Some c) h))) =
    match execute c (Insert "user_interactions"
                       [("user_id", PyStr user_id);
                        ("interaction_type", PyStr interaction_type);
                        ("details", PyStr details);
                        ("timestamp", PyStr "now()")]) with
    | Ok (_ :: _) =>
        Ok ("✅ Interaction saved successfully for user " +:+ user_id)
    | Ok [] => Ok "❌ Failed to save interaction"
    | Raise e =>
        if is_Exception e
        then Ok ("Error saving interaction: " +:+ str_exn e)
        else Raise e
    end.
Proof.
  unfold save_user_interaction. read_context.
  destruct (execute c _) as [[|row rows]|e].
  - by rewrite bind_call_Ok.
  - by rewrite bind_call_Ok.
  - rewrite bind_call_Raise. destruct (is_Exception e) eqn:He.
    + by rewrite try_except_caught.
    + by rewrite try_except_passed.
Qed.

(** X9: called without a context, which is the default of their [ctx]
    parameter, the four tools that read a client raise [AttributeError]
    before their [try] and make no call. *)
Theorem tools_without_context (env : gmap string string) :
  let fault : io string :=
    ([], Raise (Exception "AttributeError"
                  "'NoneType' object has no attribute 'request_context'")) in
  (forall latitude longitude specialty radius_miles,
     search_nearby_doctors env latitude longitude specialty radius_miles None
     = fault)
  /\ (forall doctor_id, get_doctor_availability env doctor_id None = fault)
  /\ (forall image_data,
        analyze_skin_condition_image env image_data None = fault)
  /\ (forall user_id interaction_type details,
        save_user_interaction user_id interaction_type details None = fault).
Proof. repeat split. Qed.

(** ** The doctor search *)

(** The search up to its request, for a configured key. *)
Ltac enter_search Hkey key :=
  unfold search_nearby_doctors; read_context; rewrite Hkey;
  cbn [configured default from_option id];
  destruct (String.eqb_spec key EmptyString) as [|_]; [done|];
  cbn [negb].

(** X10: when the request of the search, the check of its status or the
    decoding of its body raises an [Exception], the search has sent its
    one request and returns its error text with the message of the
    exception. *)
Theorem search_nearby_doctors_http_failure (env : gmap string string)
    (latitude longitude specialty : string) (radius_miles : Z)
    (c : option Client) (h : AsyncClient) (key : string) (e : exn) :
  getenv env "DOCTOR_API_KEY" = Some key -> key <> EmptyString ->
  (let* response :=
     http_get h doctors_url
       (doctors_params latitude longitude specialty radius_miles key) [] in
   let* _ := raise_for_status response in
   json response) = Raise e ->
  search_nearby_doctors env latitude longitude specialty radius_miles
    (Some (dict_context c (Some h))) =
  ([EvHttpGet doctors_url
      (doctors_params latitude longitude specialty radius_miles key) []],
   if is_Exception e
   then Ok ("Error searching for doctors: " +:+ str_exn e)
   else Raise e).
Proof.
  intros Hkey Hne Hfail. enter_search Hkey key.
  assert (Hbody :
            try_except ([EvHttpGet doctors_url
                           (doctors_params latitude longitude specialty
                              radius_miles key) []], Raise e)
              (fun e => ret ("Error searching for doctors: " +:+ str_exn e))
            = ([EvHttpGet doctors_url
                  (doctors_params latitude longitude specialty radius_miles
                     key) []],
               if is_Exception e
               then Ok ("Error searching for doctors: " +:+ str_exn e)
               else Raise e)).
  { destruct (is_Exception e) eqn:He.
    - by rewrite try_except_caught.
    - by rewrite try_except_passed. }
  destruct (http_get h _ _ _) as [response|e0]; simpl in Hfail.
  - rewrite bind_call_Ok.
    destruct (raise_for_status response) as [u|e1]; simpl in Hfail.
    + rewrite bind_lift_Ok, Hfail, bind_lift_Raise. exact Hbody.
    + injection Hfail as ->. rewrite bind_lift_Raise. exact Hbody.
  - injection Hfail as ->. rewrite bind_call_Raise. exact Hbody.
Qed.

(** X11: when the body of the answer is an object whose [data] is absent,
    null or empty, the search returns its no-doctors text. *)
Theorem search_nearby_doctors_no_results (env : gmap string string)
    (latitude longitude specialty : string) (radius_miles : Z)
    (c : option Client) (h : AsyncClient) (key : string)
    (response : Response) (d : dict) :
  getenv env "DOCTOR_API_KEY" = Some key -> key <> EmptyString ->
  http_get h doctors_url
    (doctors_params latitude longitude specialty radius_miles key) []
    = Ok response ->
  raise_for_status response = Ok tt ->
  json response = Ok (PyDict d) ->
  truthy (dict_get d "data" PyNone) = false ->
  search_nearby_doctors env latitude longitude specialty radius_miles
    (Some (dict_context c (Some h))) =
  ([EvHttpGet doctors_url
      (doctors_params latitude longitude specialty radius_miles key) []],
   Ok "No doctors found in your area. Please try expanding your search radius.").
Proof.
  intros Hkey Hne Hget Hstatus Hjson Hdata. enter_search Hkey key.
  rewrite Hget, bind_call_Ok, Hstatus, bind_lift_Ok, Hjson, bind_lift_Ok.
  cbn [py_get]. by rewrite bind_lift_Ok, Hdata.
Qed.

(** X12: an entry of the answer that is not an object fails the search:
    when the first entry is a string, a number, a list or null, the search
    returns its error text and shows no doctor. *)
Theorem search_nearby_doctors_malformed_entry (env : gmap string string)
    (latitude longitude specialty : string) (radius_miles : Z)
    (c : option Client) (h : AsyncClient) (key : string)
    (response : Response) (d : dict) (entry : pyval) (entries : list pyval) :
  getenv env "DOCTOR_API_KEY" = Some key -> key <> EmptyString ->
  http_get h doctors_url
    (doctors_params latitude longitude specialty radius_miles key) []
    = Ok response ->
  raise_for_status response = Ok tt ->
  json response = Ok (PyDict d) ->
  assoc "data" d = Some (PyList (entry :: entries)) ->
  (forall fields, entry <> PyDict fields) ->
  outcome (search_nearby_doctors env latitude longitude specialty radius_miles
             (Some (dict_context c (Some h)))) =
  Ok ("Error searching for doctors: '" +:+ type_name entry
      +:+ "' object has no attribute 'get'").
Proof.
  intros Hkey Hne Hget Hstatus Hjson Hdata Hentry. enter_search Hkey key.
  rewrite Hget, bind_call_Ok, Hstatus, bind_lift_Ok, Hjson, bind_lift_Ok.
  cbn [py_get py_getitem]. unfold dict_get.
  rewrite Hdata, bind_lift_Ok. cbn [truthy negb res_bind py_slice5].
  rewrite bind_lift_Ok.
  assert (Hinfo : doctor_info 1 entry = Raise (AttributeError entry "get")).
  { destruct entry; try reflexivity. by destruct (Hentry d0). }
  cbn [firstn enumerate map_res fst snd]. rewrite Hinfo. cbn [res_bind].
  by rewrite bind_lift_Raise.
Qed.

(** ** The availability tool *)

(** X13: in every context [get_doctor_availability] either fails at the
    statement that reads the HTTP client, before its [try] and without a
    call, or sends one request, authorized with whatever [os.getenv]
    returned, and never reads the answer: when the request returns, the
    text is the same list of slots whatever the status and the body of the
    answer; when it raises an [Exception], the text is the error text. *)
Theorem get_doctor_availability_ignores_response (env : gmap string string)
    (doctor_id : string) (ctx : option Context) :
  let headers :=
    [("Authorization",
      PyStr ("Bearer " +:+ str_getenv (getenv env "DOCTOR_API_KEY")))] in
  get_doctor_availability env doctor_id ctx =
  match ctx_http_client ctx with
  | Raise e => ([], Raise e)
  | Ok h =>
      ([EvHttpGet (appointments_url doctor_id) [] headers],
       match http_get h (appointments_url doctor_id) [] headers with
       | Ok _ => Ok (availability_text doctor_id)
       | Raise e =>
           if is_Exception e
           then Ok ("Error retrieving doctor availability: " +:+ str_exn e)
           else Raise e
       end)
  end.
Proof.
  intros headers. subst headers.
  destruct ctx as [[[[app|c [h|]]]]|]; try reflexivity.
  unfold get_doctor_availability, ctx_http_client.
  cbn [ctx_request_context request_context lifespan_context
       getitem_http_client res_bind].
  read_context.
  destruct (http_get h _ _ _) as [response|e].
  - by rewrite bind_call_Ok.
  - rewrite bind_call_Raise. destruct (is_Exception e) eqn:He.
    + by rewrite try_except_caught.
    + by rewrite try_except_passed.
Qed.

(** ** The tools without their key *)

(** X23: with [DOCTOR_API_KEY] unset or empty the search makes no call in
    any context: it fails at the statement that reads the HTTP client when
    the context does not give one, and returns its not-configured text
    otherwise. *)
Theorem search_nearby_doctors_without_key (env : gmap string string)
    (latitude longitude specialty : string) (radius_miles : Z)
    (ctx : option Context) :
  configured (getenv env "DOCTOR_API_KEY") = false ->
  search_nearby_doctors env latitude longitude specialty radius_miles ctx =
  match ctx_http_client ctx with
  | Raise e => ([], Raise e)
  | Ok _ =>
      ([], Ok "Doctor API key not configured. Please contact administrator.")
  end.
Proof.
  intros Hkey. destruct ctx as [[[[app|c [h|]]]]|]; try reflexivity.
  unfold search_nearby_doctors, ctx_http_client.
  cbn [ctx_request_context request_context lifespan_context
       getitem_http_client res_bind].
  read_context. by rewrite Hkey.
Qed.

(** X24: with [SKIN_ANALYSIS_API_KEY] unset or empty the analysis makes no
    call in any context: it fails at the statement that reads the HTTP
    client when the context does not give one, and returns its
    not-configured text otherwise. *)
Theorem analyze_skin_condition_image_without_key (env : gmap string string)
    (image_data : string) (ctx : option Context) :
  configured (getenv env "SKIN_ANALYSIS_API_KEY") = false ->
  analyze_skin_condition_image env image_data ctx =
  match ctx_http_client ctx with
  | Raise e => ([], Raise e)
  | Ok _ =>
      ([], Ok "Skin analysis API not configured. Please contact administrator.")
  end.
Proof.
  intros Hkey. destruct ctx as [[[[app|c [h|]]]]|]; try reflexivity.
  unfold analyze_skin_condition_image, ctx_http_client.
  cbn [ctx_request_context request_context lifespan_context
       getitem_http_client res_bind].
  read_context. by rewrite Hkey.
Qed.

(** ** The image analysis *)

Lemma concat_empty_cons (x : string) (l : list string) :
  String.concat EmptyString (x :: l) = x +:+ String.concat EmptyString l.
Proof. destruct l; simpl; [by rewrite append_nil_r | done]. Qed.

Lemma fold_left_lines (recs : list pyval) (init : string) :
  fold_left (fun acc rec => acc +:+ "• " +:+ py_str rec +:+ nl) recs init =
  init +:+ String.concat EmptyString (recommendation_line <$> recs).
Proof.
  revert init. induction recs as [|rec recs IH]; intros init.
  - simpl. by rewrite append_nil_r.
  - cbn [fold_left]. rewrite IH, fmap_cons, concat_empty_cons.
    by rewrite append_assoc.
Qed.

Ltac enter_analyze Hkey key :=
  unfold analyze_skin_condition_image; read_context; rewrite Hkey;
  cbn [configured str_getenv];
  destruct (String.eqb_spec key EmptyString) as [|_]; [done|];
  cbn [negb].

(** X14: on a successful answer the analysis has posted the image as it
    was given, and its report is the header with the confidence, the
    condition and the risk level of the answer ([0], [Unknown] and
    [Unknown] when absent), one line for each recommendation in the order
    of the answer, then the disclaimer. *)
Theorem analyze_skin_condition_image_report (env : gmap string string)
    (image_data : string) (c : option Client) (h : AsyncClient)
    (key : string) (response : Response) (d : dict) (recs : list pyval) :
  getenv env "SKIN_ANALYSIS_API_KEY" = Some key -> key <> EmptyString ->
  http_post h analyze_url (analyze_payload image_data) (analyze_headers key)
    = Ok response ->
  raise_for_status response = Ok tt ->
  json response = Ok (PyDict d) ->
  py_iter (dict_get d "recommendations" (PyList [])) = Ok recs ->
  analyze_skin_condition_image env image_data
    (Some (dict_context c (Some h))) =
  ([EvHttpPost analyze_url (analyze_payload image_data) (analyze_headers key)],
   Ok (analysis_header (dict_get d "confidence" (PyInt 0))
                       (dict_get d "predicted_condition" (PyStr "Unknown"))
                       (dict_get d "risk_level" (PyStr "Unknown"))
       +:+ String.concat EmptyString (recommendation_line <$> recs)
       +:+ analysis_disclaimer)).
Proof.
  intros Hkey Hne Hpost Hstatus Hjson Hrecs. enter_analyze Hkey key.
  change (http_post h _ _ _)
    with (http_post h analyze_url (analyze_payload image_data)
                    (analyze_headers key)).
  rewrite Hpost, bind_call_Ok, Hstatus, bind_lift_Ok, Hjson.
  rewrite bind_lift_Ok. cbn [py_get]. rewrite !bind_lift_Ok, Hrecs.
  rewrite bind_lift_Ok, fold_left_lines, append_assoc. reflexivity.
Qed.

(** X15: when the recommendations of the answer cannot be gone through (a
    number, a boolean or null stands where the list should), the analysis
    returns its error text instead of a report. *)
Theorem analyze_skin_condition_image_bad_recommendations
    (env : gmap string string) (image_data : string) (c : option Client)
    (h : AsyncClient) (key : string) (response : Response) (d : dict)
    (e : exn) :
  getenv env "SKIN_ANALYSIS_API_KEY" = Some key -> key <> EmptyString ->
  http_post h analyze_url (analyze_payload image_data) (analyze_headers key)
    = Ok response ->
  raise_for_status response = Ok tt ->
  json response = Ok (PyDict d) ->
  py_iter (dict_get d "recommendations" (PyList [])) = Raise e ->
  outcome (analyze_skin_condition_image env image_data
             (Some (dict_context c (Some h)))) =
  Ok ("Error analyzing skin condition: " +:+ str_exn e
      +:+ ". Please ensure the image is clear and try again.").
Proof.
  intros Hkey Hne Hpost Hstatus Hjson Hrecs. enter_analyze Hkey key.
  change (http_post h _ _ _)
    with (http_post h analyze_url (analyze_payload image_data)
                    (analyze_headers key)).
  rewrite Hpost, bind_call_Ok, Hstatus, bind_lift_Ok, Hjson.
  rewrite bind_lift_Ok. cbn [py_get]. rewrite !bind_lift_Ok, Hrecs.
  rewrite bind_lift_Raise.
  pose proof (py_iter_exn (dict_get d "recommendations" (PyList []))) as He.
  rewrite Hrecs in He. simpl in He.
  unfold outcome, try_except. cbn [snd]. by rewrite He.
Qed.

(** ** What the operations call *)

Lemma silent_ret {A} (a : A) : silent (ret a).
Proof. done. Qed.

Lemma silent_lift {A} (r : res A) : silent (lift r).
Proof. done. Qed.

Lemma silent_bind {A B} (m : io A) (k : A -> io B) :
  silent m -> (forall a, silent (k a)) -> silent (bind m k).
Proof.
  destruct m as [t [a|e]]; unfold silent, bind, trace; simpl; [|done].
  intros -> Hk. specialize (Hk a). by destruct (k a).
Qed.

Ltac solve_silent :=
  repeat first
    [ apply silent_ret
    | apply silent_lift
    | apply silent_bind; [|intros ?]
    | match goal with
      | |- silent (if ?b then _ else _) => destruct b
      | |- silent (match ?x with _ => _ end) => destruct x
      end
    | progress cbv zeta ].

Lemma one_request_silent {A} (m : io A) : silent m -> one_request m.
Proof. unfold silent, one_request, single. intros ->. simpl. split; [lia|done]. Qed.

Lemma one_request_bind {A B} (m : io A) (k : A -> io B) :
  silent m -> (forall a, one_request (k a)) -> one_request (bind m k).
Proof.
  destruct m as [t [a|e]]; unfold silent, one_request, single, bind, trace;
    simpl.
  - intros -> Hk. specialize (Hk a). by destruct (k a).
  - intros ->. simpl. split; [lia|done].
Qed.

Lemma one_request_call {A B} (ev : event) (r : res A) (k : A -> io B) :
  is_request ev = true -> (forall a, silent (k a)) ->
  one_request (bind (call ev r) k).
Proof.
  intros Hev Hk. destruct r as [a|e].
  - rewrite bind_call_Ok. unfold one_request, single, trace. simpl.
    rewrite (Hk a), Hev. by split.
  - rewrite bind_call_Raise. unfold one_request, single, trace. simpl.
    rewrite Hev. by split.
Qed.

Lemma one_request_then {A B} (m : io A) (k : A -> io B) :
  one_request m -> (forall a, silent (k a)) -> one_request (bind m k).
Proof.
  destruct m as [t [a|e]]; unfold silent, one_request, single, bind, trace;
    simpl; [|done].
  intros Hm Hk. specialize (Hk a). destruct (k a) as [t' r]. simpl in Hk.
  subst t'. by rewrite app_nil_r.
Qed.

Lemma one_request_try_except {A} (body : io A) (s : exn -> A) :
  one_request body -> one_request (try_except body (fun e => ret (s e))).
Proof.
  destruct body as [t [a|e]]; unfold one_request, single, try_except, trace;
    simpl; [done|].
  destruct (is_Exception e); simpl; [|done]. by rewrite app_nil_r.
Qed.

Ltac solve_one_request :=
  repeat first
    [ apply one_request_try_except
    | apply one_request_call; [reflexivity | intros ?; solve_silent]
    | apply one_request_bind; [solve [solve_silent] | intros ?]
    | apply one_request_then; [|intros ?; solve [solve_silent]]
    | apply one_request_silent; solve [solve_silent]
    | match goal with
      | |- one_request (if ?b then _ else _) => destruct b
      | |- one_request (match ?x with _ => _ end) => destruct x
      end
    | progress cbv zeta ].

(** X16: whatever the environment, the context, the clients and the
    arguments, an operation makes one external call at most, and that call
    is a query of the data store or an HTTP request: no operation sends a
    second request, constructs a client, closes one or prints. *)
Theorem call_operation_one_request (env : gmap string string) (ctx : Context)
    (op : operation) :
  length (trace (call_operation env ctx op)) <= 1
  /\ (forall ev, ev ∈ trace (call_operation env ctx op) ->
        is_request ev = true).
Proof.
  assert (H : one_request (call_operation env ctx op)).
  { destruct op; cbn [call_operation]; unfold text;
      unfold get_user_profile, get_user_medical_history,
        search_nearby_doctors, get_doctor_availability,
        analyze_skin_condition_image, save_user_interaction;
      solve_one_request. }
  destruct H as [Hlen Hall]. split; [exact Hlen|].
  intros ev Hev. rewrite forallb_forall in Hall.
  by apply Hall, list_elem_of_In.
Qed.

(** ** Texts that show their arguments *)

Lemma contains_between (pa l x r pb : string) :
  contains ((pa +:+ l) +:+ x +:+ (r +:+ pb)) (l +:+ x +:+ r).
Proof. exists pa, pb. by rewrite !append_assoc. Qed.

(** X17: the booking text shows the name of the doctor and the website
    of the practice as they were given. *)
Theorem create_appointment_booking_resource_shows
    (doctor_name practice_website : string) :
  contains (create_appointment_booking_resource doctor_name practice_website)
           ("Appointment Booking Options for " +:+ doctor_name +:+ ":")
  /\ contains
       (create_appointment_booking_resource doctor_name practice_website)
       practice_website.
Proof.
  unfold create_appointment_booking_resource. split.
  - eapply (contains_between (nl +:+ "📋 ") "Appointment Booking Options for "
                             doctor_name ":").
  - do 2 apply contains_append_r. apply contains_intro.
Qed.

(** X18: the first message of the skincare prompt is the user's and shows
    each argument, or the fallback of the argument when it is empty; the
    three messages after it are the same for all arguments. *)
Theorem skincare_product_consultation_fallbacks
    (skin_type concerns budget : string) :
  let shown (s fallback : string) :=
    if String.eqb s EmptyString then fallback else s in
  exists request,
    skincare_product_consultation skin_type concerns budget =
      UserMessage request
      :: tail (skincare_product_consultation EmptyString EmptyString
                                             EmptyString)
    /\ contains request
         ("- Skin Type: " +:+ shown skin_type "Not specified" +:+ nl)
    /\ contains request
         ("- Main Concerns: " +:+ shown concerns "General skincare" +:+ nl)
    /\ contains request
         ("- Budget Range: " +:+ shown budget "Not specified" +:+ nl).
Proof.
  intros shown. subst shown. cbv beta.
  eexists. split; [reflexivity|]. split; [|split].
  - eapply (contains_between
              (nl +:+ "I'm looking for skincare product recommendations. Here are my details:" +:+ nl)
              "- Skin Type: " _ nl).
  - do 2 apply contains_append_r.
    eapply (contains_between nl "- Main Concerns: " _ nl).
  - do 4 apply contains_append_r.
    eapply (contains_between nl "- Budget Range: " _ nl).
Qed.

(** X19: the profile text carries one labelled line for each of its six
    fields; a field absent from the row shows its placeholder, and a field
    the row holds as null shows as [None], not as the placeholder. *)
Theorem user_profile_text_fields (user_data : dict) :
  Forall (fun f : string * string * string =>
            contains (user_profile_text user_data)
                     (f.1.1 +:+ fmt_get user_data f.1.2 f.2 +:+ nl))
         [("- Name: ", "full_name", "N/A");
          ("- Email: ", "email", "N/A");
          ("- Age: ", "age", "N/A");
          ("- Medical History: ", "medical_history", "No history recorded");
          ("- Allergies: ", "allergies", "None reported");
          ("- Current Medications: ", "current_medications", "None reported")]
  /\ (forall k placeholder,
        assoc k user_data = None ->
        fmt_get user_data k placeholder = placeholder)
  /\ (forall k placeholder,
        assoc k user_data = Some PyNone ->
        fmt_get user_data k placeholder = "None").
Proof.
  split; [|split].
  - unfold user_profile_text. repeat apply Forall_cons_2; [..|constructor];
      cbn [fst snd].
    + eapply (contains_between (nl +:+ "User Profile:" +:+ nl) "- Name: " _ nl).
    + do 2 apply contains_append_r.
      eapply (contains_between nl "- Email: " _ nl).
    + do 4 apply contains_append_r.
      eapply (contains_between nl "- Age: " _ nl).
    + do 6 apply contains_append_r.
      eapply (contains_between nl "- Medical History: " _ nl).
    + do 8 apply contains_append_r.
      eapply (contains_between nl "- Allergies: " _ nl).
    + do 10 apply contains_append_r.
      eapply (contains_between nl "- Current Medications: " _ nl EmptyString).
  - apply fmt_get_missing.
  - intros k placeholder H. unfold fmt_get, dict_get. by rewrite H.
Qed.

(** ** One entry of the doctor search *)

(** X20: an entry that is an object with no profile, no specialties and
    no practice, or an empty list of practices, is shown with the
    placeholders of its fields and does not fail, when the conversion of
    the default rating returns. *)
Theorem doctor_info_without_fields (i : nat) (d : dict) (stars : Z) :
  assoc "profile" d = None ->
  assoc "specialties" d = None ->
  assoc "practices" d = None \/ assoc "practices" d = Some (PyList []) ->
  int_float (PyInt 0) = Ok stars ->
  exists entry,
    doctor_info i (PyDict d) = Ok entry
    /\ contains entry ("Practice: N/A" +:+ nl)
    /\ contains entry ("Phone: N/A" +:+ nl)
    /\ contains entry ("Website: No website available" +:+ nl).
Proof.
  intros Hprofile Hspecialties Hpractices Hstars.
  unfold doctor_info. cbn [py_get res_bind]. unfold dict_get.
  rewrite Hprofile, Hspecialties.
  assert (Hpractice :
    (if truthy match assoc "practices" d with
               | Some v => v
               | None => PyList [PyDict []]
               end
     then py_index0 match assoc "practices" d with
                    | Some v => v
                    | None => PyList [PyDict []]
                    end
     else Ok (PyDict [])) = Ok (PyDict [])).
  { by destruct Hpractices as [-> | ->]. }
  rewrite Hpractice.
  cbn [res_bind py_get py_iter map_res py_join join_items dict_get assoc
       py_index0 String.concat].
  rewrite Hstars. cbn [res_bind]. eexists. split; [reflexivity|].
  cbn [py_str truthy].
  split; [|split].
  - do 8 apply contains_append_r.
    eapply (contains_between (nl +:+ "   ") "Practice: " "N/A" nl).
  - do 12 apply contains_append_r.
    eapply (contains_between (nl +:+ "   ") "Phone: " "N/A" nl).
  - do 18 apply contains_append_r.
    eapply (contains_between (nl +:+ "   " +:+ nl +:+ "   ") "Website: "
                             "No website available" nl).
Qed.

(** X21: when the fields that stand before the telephone are rendered
    (the profile and the visit address of the entry are objects, or absent
    and so their default, and its specialties join to a text), an entry
    whose first practice has an empty list of telephones fails with
    [IndexError]. *)
Theorem doctor_info_empty_phones (i : nat) (d profile practice address : dict)
    (practices : list pyval) (specialty : string) :
  dict_get d "profile" (PyDict []) = PyDict profile ->
  (let* items := py_iter (dict_get d "specialties" (PyList [])) in
   let* names :=
     map_res (fun s => py_get s "name" (PyStr EmptyString)) items in
   py_join ", " names) = Ok specialty ->
  assoc "practices" d = Some (PyList (PyDict practice :: practices)) ->
  dict_get practice "visit_address" (PyDict []) = PyDict address ->
  assoc "phones" practice = Some (PyList []) ->
  doctor_info i (PyDict d) =
    Raise (Exception "IndexError" "list index out of range").
Proof.
  intros Hprofile Hspecialty Hpractices Haddress Hphones.
  assert (Hpr : dict_get d "practices" (PyList [PyDict []])
                = PyList (PyDict practice :: practices))
    by (unfold dict_get; by rewrite Hpractices).
  assert (Hph : dict_get practice "phones" (PyList [PyDict []]) = PyList [])
    by (unfold dict_get; by rewrite Hphones).
  unfold doctor_info. cbn [py_get res_bind].
  rewrite Hprofile, Hpr. cbn [truthy py_index0 py_get res_bind].
  destruct (py_iter _) as [items|]; [|discriminate]. cbn [res_bind] in *.
  destruct (map_res _ items) as [names|]; [|discriminate].
  cbn [res_bind] in *.
  destruct (py_join ", " names) as [joined|]; [|discriminate].
  cbn [res_bind]. rewrite Haddress. cbn [py_get res_bind].
  by rewrite Hph.
Qed.

End Handlers.

(** * Examples *)

(** With the data-store endpoint alone in the environment, the entry point
    names the three other variables and exits with status 1. *)
Lemma main_names_missing_vars_witness :
  main (<["SUPABASE_URL" := "https://db.example"]> ∅) (ret tt) =
    ([EvPrint "Missing required environment variables: SUPABASE_ANON_KEY, DOCTOR_API_KEY, SKIN_ANALYSIS_API_KEY";
      EvPrint "Please set these variables before running the server."],
     Raise (SystemExit 1)).
Proof.
  refine (proj1 (main_names_missing_vars _ _ _)).
  exists "DOCTOR_API_KEY". split; [|reflexivity].
  apply list_elem_of_In. simpl. tauto.
Defined.

(** An empty environment fails the check of the lifespan before any
    constructor runs; a data-store constructor that raises ends the startup
    after that one call. *)
Lemma app_lifespan_initialization_witness :
  app_lifespan (fun _ _ => Ok (failing_client (Exception "APIError" "down")))
               (fun _ => Ok (http_stub (Raise (Exception "ConnectError" "down"))))
               ∅ (fun _ => ret tt)
  = ([], Raise (Exception "ValueError"
       "SUPABASE_URL and SUPABASE_ANON_KEY environment variables are required"))
  /\ app_lifespan (fun _ _ => Raise (Exception "SupabaseException" "Invalid URL"))
                  (fun _ => Ok (http_stub (Raise (Exception "ConnectError" "down"))))
                  sample_env (fun _ => ret tt)
     = ([EvCreateClient "https://db.example" "anon"],
        Raise (Exception "SupabaseException" "Invalid URL")).
Proof.
  split.
  - apply (proj1 (app_lifespan_initialization _ _ ∅ _)). by left.
  - apply (proj2 (app_lifespan_initialization _ _ sample_env _)
             "https://db.example" "anon"); done.
Defined.

(** A run that ends on the fault of a handler while the context is live:
    the HTTP client is closed once and the fault is raised again. *)
Lemma app_lifespan_closes_once_witness :
  let run :=
    app_lifespan (fun _ _ => Ok (memory_store repr_plain []))
                 (fun _ => Ok sample_directory)
                 sample_env
                 (fun app =>
                    call_operation repr_plain int_float_exact sample_env
                      (lifespan_request_context app) (OpGetUserProfile "42") ;;;
                    raise (BaseException "KeyboardInterrupt" "")) in
  trace run = [EvCreateClient "https://db.example" "anon"; EvAsyncClient 30;
               EvAclose]
  /\ length (List.filter is_aclose (trace run)) = 1
  /\ outcome run =
       Raise (Exception "TypeError" "'AppContext' object is not subscriptable").
Proof.
  destruct (app_lifespan_closes_once
              (fun _ _ => Ok (memory_store repr_plain []))
              (fun _ => Ok sample_directory)
              sample_env "https://db.example" "anon"
              (memory_store repr_plain []) sample_directory
              (fun app =>
                 call_operation repr_plain int_float_exact sample_env
                   (lifespan_request_context app) (OpGetUserProfile "42") ;;;
                 raise (BaseException "KeyboardInterrupt" "")))
    as (Htrace & _ & Honce & Hfault); [done..|].
  intros run. split; [exact Htrace|].
  split; [apply Honce; reflexivity | apply Hfault; reflexivity].
Defined.

(** An insert that is answered with the inserted row. *)
Lemma save_user_interaction_record_witness :
  outcome (save_user_interaction "42" "search" "dermatologists"
             (Some (dict_context (Some (memory_store repr_plain [])) None)))
  = Ok "✅ Interaction saved successfully for user 42".
Proof.
  apply (proj2 (proj2 (save_user_interaction_record
                         "42" "search" "dermatologists"
                         (Some (dict_context
                                  (Some (memory_store repr_plain [])) None))))).
  by eexists _, _, _, _.
Defined.

(** With an empty environment the availability request is sent, authorized
    as [Bearer None]. *)
Lemma get_doctor_availability_without_key_witness :
  get_doctor_availability ∅ "d1"
    (Some (dict_context None (Some (http_stub (Ok (json_response PyNone))))))
  = ([EvHttpGet "https://api.betterdoctor.com/2016-05-02/doctors/d1/appointments"
                [] [("Authorization", PyStr "Bearer None")]],
     Ok (availability_text "d1")).
Proof.
  destruct (get_doctor_availability_without_key ∅ "d1" None
              (http_stub (Ok (json_response PyNone))))
    as (_ & _ & Hrun); [reflexivity|].
  exact (Hrun (json_response PyNone) eq_refl).
Defined.

(** The appointment prompt under two environments and two contexts. *)
Lemma prompts_are_pure_witness :
  call_operation repr_plain int_float_exact ∅
    (dict_context None None) (OpAppointmentWorkflowPrompt "Dr. Roe" "general")
  = call_operation repr_plain int_float_exact sample_env
      (dict_context (Some (failing_client (Exception "APIError" "down")))
                    (Some sample_directory))
      (OpAppointmentWorkflowPrompt "Dr. Roe" "general").
Proof.
  exact (proj1 (prompts_are_pure repr_plain int_float_exact _ _ _ _
                  (OpAppointmentWorkflowPrompt "Dr. Roe" "general") eq_refl)).
Defined.

(** Of the seven practitioners of the sample directory, five are shown. *)
Lemma search_nearby_doctors_first_five_witness :
  exists doctors,
    outcome (search_nearby_doctors repr_plain int_float_exact sample_env
               "40.0" "-73.0" "general" 10
               (Some (dict_context None (Some sample_directory))))
    = Ok (doctors_found_text doctors)
    /\ length doctors = 5.
Proof.
  destruct (search_nearby_doctors_first_five repr_plain int_float_exact
              sample_env "40.0" "-73.0" "general" 10 None sample_directory
              "key"
              (json_response
                 (PyDict [("data",
                           PyList (sample_doctor <$>
                                     ["A"; "B"; "C"; "D"; "E"; "F"; "G"]))]))
              [("data",
                PyList (sample_doctor <$> ["A"; "B"; "C"; "D"; "E"; "F"; "G"]))]
              (sample_doctor <$> ["A"; "B"; "C"; "D"; "E"; "F"; "G"]))
    as (Hrun & _ & Hrendered & _); [reflexivity || discriminate..|].
  destruct (map_res _ _) as [doctors|e] eqn:Hdoctors in Hrun, Hrendered;
    [|discriminate Hdoctors].
  exists doctors. split; [exact Hrun|]. exact (proj1 (Hrendered doctors eq_refl)).
Defined.

(** A data-store client that fails: the text of the profile resource tells
    the failure. *)
Example get_user_profile_failing_client :
  get_user_profile repr_plain
    (dict_context (Some (failing_client (Exception "APIError" "down"))) None)
    "42"
  = ([EvExecute (Select "users" "*" "id" "42" None)],
     Ok "Error retrieving user profile: down").
Proof. reflexivity. Qed.

(** A cancellation is no [Exception]: it passes through the [try]. *)
Example get_user_profile_cancelled :
  get_user_profile repr_plain
    (dict_context
       (Some (failing_client (BaseException "CancelledError" ""))) None)
    "42"
  = ([EvExecute (Select "users" "*" "id" "42" None)],
     Raise (BaseException "CancelledError" "")).
Proof. reflexivity. Qed.

(** The search without an API key sends nothing. *)
Example search_nearby_doctors_no_key :
  search_nearby_doctors repr_plain int_float_exact ∅ "40.0" "-73.0" "general"
    10 (Some (dict_context None (Some sample_directory)))
  = ([], Ok "Doctor API key not configured. Please contact administrator.").
Proof. reflexivity. Qed.

(** An entry of the directory without a telephone fails the whole search. *)
Example search_nearby_doctors_no_phone :
  outcome
    (search_nearby_doctors repr_plain int_float_exact sample_env "40.0" "-73.0"
       "general" 10
       (Some (dict_context None
                (Some (http_stub
                         (Ok (json_response
                                (PyDict
                                   [("data",
                                     PyList
                                       [PyDict
                                          [("practices",
                                            PyList
                                              [PyDict
                                                 [("phones", PyList [])]])]])]))))))))
  = Ok "Error searching for doctors: list index out of range".
Proof. reflexivity. Qed.

(** * Further examples *)

(** With the four variables set the entry point hands over to the
    server. *)
Lemma main_runs_when_configured_witness :
  main full_env (call (EvPrint "serving") (Ok tt))
  = call (EvPrint "serving") (Ok tt).
Proof.
  refine (proj2 (main_runs_when_configured full_env _ _)).
  intros var Hvar. apply list_elem_of_In in Hvar. simpl in Hvar.
  destruct Hvar as [<-|[<-|[<-|[<-|[]]]]]; reflexivity.
Defined.

(** An endpoint set to the empty string is named as missing. *)
Lemma main_rejects_empty_value_witness :
  "SUPABASE_URL" ∈ missing_vars (<["SUPABASE_URL" := ""]> full_env)
  /\ exit_status
       (outcome (main (<["SUPABASE_URL" := ""]> full_env) (ret tt))) = 1%Z.
Proof.
  destruct (main_rejects_empty_value (<["SUPABASE_URL" := ""]> full_env)
              (ret tt) "SUPABASE_URL") as (Hin & _ & Hexit).
  - apply list_elem_of_In. simpl. tauto.
  - reflexivity.
  - split; [exact Hin | exact Hexit].
Defined.

(** The entry point followed by the lifespan, on a full environment. *)
Lemma main_then_lifespan_witness :
  exists url key,
    getenv full_env "SUPABASE_URL" = Some url
    /\ getenv full_env "SUPABASE_ANON_KEY" = Some key
    /\ main full_env
         (app_lifespan (fun _ _ => Ok (failing_client (Exception "APIError" "down")))
                       (fun _ => Ok sample_directory) full_env
                       (fun _ => ret tt))
       = (supabase <- call (EvCreateClient url key)
                           (Ok (failing_client (Exception "APIError" "down"))) ;;
          http_client <- call (EvAsyncClient 30) (Ok sample_directory) ;;
          try_finally (ret tt) (call EvAclose (aclose http_client))).
Proof.
  apply (main_then_lifespan
           (fun _ _ => Ok (failing_client (Exception "APIError" "down")))
           (fun _ => Ok sample_directory) full_env (fun _ => ret tt)).
  reflexivity.
Defined.

(** A close that raises is what the lifespan ends with. *)
Lemma app_lifespan_close_failure_witness :
  outcome
    (app_lifespan
       (fun _ _ => Ok (failing_client (Exception "APIError" "down")))
       (fun _ =>
          Ok {| http_get := fun _ _ _ => Raise (Exception "ConnectError" "down");
                http_post := fun _ _ _ => Raise (Exception "ConnectError" "down");
                aclose := Raise (Exception "RuntimeError" "closed") |})
       full_env (fun _ => ret tt))
  = Raise (Exception "RuntimeError" "closed").
Proof.
  eapply (app_lifespan_close_failure _ _ full_env "https://db.example" "anon");
    reflexivity || discriminate.
Defined.

(** Both resources against a data store that is down. *)
Lemma resources_report_store_failure_witness :
  outcome (get_user_profile repr_plain
             (dict_context
                (Some (failing_client (Exception "APIError" "down"))) None)
             "42")
  = Ok "Error retrieving user profile: down"
  /\ outcome (get_user_medical_history repr_plain
                (dict_context
                   (Some (failing_client (Exception "APIError" "down"))) None)
                "42")
     = Ok "Error retrieving medical history: down".
Proof.
  destruct (resources_report_store_failure repr_plain
              (failing_client (Exception "APIError" "down")) None "42"
              (Exception "APIError" "down") (Exception "APIError" "down")
              eq_refl eq_refl) as [Hprofile Hhistory].
  split; [by rewrite Hprofile | by rewrite Hhistory].
Defined.

(** Two rows for one identifier: the first is shown. *)
Lemma get_user_profile_first_row_witness :
  outcome (get_user_profile repr_plain
             (dict_context
                (Some {| execute := fun _ => Ok sample_users |}) None) "42")
  = Ok (user_profile_text repr_plain
          [("id", PyInt 7); ("full_name", PyStr "Bo Roe")]).
Proof.
  by rewrite (get_user_profile_first_row repr_plain
                {| execute := fun _ => Ok sample_users |} None "42"
                _ _ eq_refl).
Defined.

(** A directory that refuses the request. *)
Lemma search_nearby_doctors_http_failure_witness :
  search_nearby_doctors repr_plain int_float_exact sample_env
    "40.0" "-73.0" "general" 10
    (Some (dict_context None
             (Some (http_stub
                      (Ok {| raise_for_status :=
                               Raise (Exception "HTTPStatusError" "403 Forbidden");
                             json := Ok PyNone |})))))
  = ([EvHttpGet doctors_url
        (doctors_params "40.0" "-73.0" "general" 10 "key") []],
     Ok "Error searching for doctors: 403 Forbidden").
Proof.
  eapply (search_nearby_doctors_http_failure repr_plain int_float_exact
            sample_env "40.0" "-73.0" "general" 10 None _ "key"
            (Exception "HTTPStatusError" "403 Forbidden"));
    reflexivity || discriminate.
Defined.

(** A directory that knows no doctor. *)
Lemma search_nearby_doctors_no_results_witness :
  search_nearby_doctors repr_plain int_float_exact sample_env
    "40.0" "-73.0" "general" 10
    (Some (dict_context None
             (Some (http_stub
                      (Ok (json_response (PyDict [("data", PyList [])])))))))
  = ([EvHttpGet doctors_url
        (doctors_params "40.0" "-73.0" "general" 10 "key") []],
     Ok "No doctors found in your area. Please try expanding your search radius.").
Proof.
  eapply (search_nearby_doctors_no_results repr_plain int_float_exact
            sample_env "40.0" "-73.0" "general" 10 None _ "key"
            (json_response (PyDict [("data", PyList [])]))
            [("data", PyList [])]);
    reflexivity || discriminate.
Defined.

(** A directory whose first entry is a name instead of an object. *)
Lemma search_nearby_doctors_malformed_entry_witness :
  outcome
    (search_nearby_doctors repr_plain int_float_exact sample_env
       "40.0" "-73.0" "general" 10
       (Some (dict_context None
                (Some (http_stub
                         (Ok (json_response
                                (PyDict [("data",
                                          PyList [PyStr "Dr. Roe"])]))))))))
  = Ok "Error searching for doctors: 'str' object has no attribute 'get'".
Proof.
  eapply (search_nearby_doctors_malformed_entry repr_plain int_float_exact
            sample_env "40.0" "-73.0" "general" 10 None _ "key"
            (json_response (PyDict [("data", PyList [PyStr "Dr. Roe"])]))
            [("data", PyList [PyStr "Dr. Roe"])] (PyStr "Dr. Roe") []);
    reflexivity || discriminate.
Defined.

(** The report for the sample finding: two recommendations, two lines. *)
Lemma analyze_skin_condition_image_report_witness :
  outcome
    (analyze_skin_condition_image repr_plain full_env "aGVsbG8="
       (Some (dict_context None
                (Some (http_stub
                         (Ok (json_response (PyDict sample_analysis))))))))
  = Ok (analysis_header repr_plain (PyInt 87) (PyStr "eczema") (PyStr "Unknown")
        +:+ ("• Moisturize" +:+ nl +:+ "• See a doctor" +:+ nl)
        +:+ analysis_disclaimer).
Proof.
  by rewrite (analyze_skin_condition_image_report repr_plain full_env
                "aGVsbG8=" None
                (http_stub (Ok (json_response (PyDict sample_analysis))))
                "skin" (json_response (PyDict sample_analysis))
                sample_analysis
                [PyStr "Moisturize"; PyStr "See a doctor"]
                ltac:(reflexivity) ltac:(discriminate) eq_refl eq_refl
                eq_refl eq_refl).
Defined.

(** A finding whose recommendations are null. *)
Lemma analyze_skin_condition_image_bad_recommendations_witness :
  outcome
    (analyze_skin_condition_image repr_plain full_env "aGVsbG8="
       (Some (dict_context None
                (Some (http_stub
                         (Ok (json_response
                                (PyDict [("recommendations", PyNone)]))))))))
  = Ok "Error analyzing skin condition: 'NoneType' object is not iterable. Please ensure the image is clear and try again.".
Proof.
  eapply (analyze_skin_condition_image_bad_recommendations repr_plain full_env
            "aGVsbG8=" None _ "skin"
            (json_response (PyDict [("recommendations", PyNone)]))
            [("recommendations", PyNone)]
            (Exception "TypeError" "'NoneType' object is not iterable"));
    reflexivity || discriminate.
Defined.

(** An entry with no field at all. *)
Lemma doctor_info_without_fields_witness :
  exists entry,
    doctor_info repr_plain int_float_exact 1 (PyDict []) = Ok entry
    /\ contains entry ("Practice: N/A" +:+ nl).
Proof.
  destruct (doctor_info_without_fields repr_plain int_float_exact 1 [] 0
              eq_refl eq_refl (or_introl eq_refl) eq_refl)
    as (entry & Hentry & Hpractice & _).
  exists entry. by split.
Defined.

(** A practitioner with a name and a practice without a telephone. *)
Lemma doctor_info_empty_phones_witness :
  doctor_info repr_plain int_float_exact 1
    (PyDict [("profile", PyDict [("first_name", PyStr "Kim");
                                 ("last_name", PyStr "Roe")]);
             ("specialties", PyList [PyDict [("name", PyStr "Dermatology")]]);
             ("practices",
              PyList [PyDict [("name", PyStr "Skin Clinic");
                              ("phones", PyList [])]])])
  = Raise (Exception "IndexError" "list index out of range").
Proof.
  exact (doctor_info_empty_phones repr_plain int_float_exact 1
           [("profile", PyDict [("first_name", PyStr "Kim");
                                ("last_name", PyStr "Roe")]);
            ("specialties", PyList [PyDict [("name", PyStr "Dermatology")]]);
            ("practices",
             PyList [PyDict [("name", PyStr "Skin Clinic");
                             ("phones", PyList [])]])]
           [("first_name", PyStr "Kim"); ("last_name", PyStr "Roe")]
           [("name", PyStr "Skin Clinic"); ("phones", PyList [])]
           [] [] "Dermatology" eq_refl eq_refl eq_refl eq_refl eq_refl).
Defined.

(** Every operation against a data store and a directory that are down
    returns a text. *)
Lemma handlers_contain_exceptions_witness :
  exists s,
    outcome (call_operation repr_plain int_float_exact sample_env
               (dict_context
                  (Some (failing_client (Exception "APIError" "down")))
                  (Some (http_stub (Raise (Exception "ConnectError" "down")))))
               (OpSearchNearbyDoctors "40.0" "-73.0" "general" 10))
    = Ok (Text s).
Proof.
  apply (handlers_contain_exceptions repr_plain int_float_exact sample_env
           (failing_client (Exception "APIError" "down"))
           (http_stub (Raise (Exception "ConnectError" "down")))
           (OpSearchNearbyDoctors "40.0" "-73.0" "general" 10)).
  - by intros [].
  - done.
  - done.
  - done.
  - discriminate.
Defined.

(** The search with the key set to the empty string, under a context that
    gives the HTTP client and under the context of the lifespan. *)
Lemma search_nearby_doctors_without_key_witness :
  search_nearby_doctors repr_plain int_float_exact
    (<["DOCTOR_API_KEY" := ""]> ∅) "40.0" "-73.0" "general" 10
    (Some (dict_context None (Some sample_directory)))
  = ([], Ok "Doctor API key not configured. Please contact administrator.")
  /\ search_nearby_doctors repr_plain int_float_exact
       (<["DOCTOR_API_KEY" := ""]> ∅) "40.0" "-73.0" "general" 10
       (Some (lifespan_request_context
                {| supabase := failing_client (Exception "APIError" "down");
                   http_client := sample_directory |}))
     = ([], Raise (Exception "TypeError"
                     "'AppContext' object is not subscriptable")).
Proof.
  split.
  - apply (search_nearby_doctors_without_key repr_plain int_float_exact
             (<["DOCTOR_API_KEY" := ""]> ∅) "40.0" "-73.0" "general" 10
             (Some (dict_context None (Some sample_directory)))).
    reflexivity.
  - apply (search_nearby_doctors_without_key repr_plain int_float_exact
             (<["DOCTOR_API_KEY" := ""]> ∅) "40.0" "-73.0" "general" 10
             (Some (lifespan_request_context
                      {| supabase :=
                           failing_client (Exception "APIError" "down");
                         http_client := sample_directory |}))).
    reflexivity.
Defined.

(** The analysis without its key, under a context that gives the HTTP
    client and without a context. *)
Lemma analyze_skin_condition_image_without_key_witness :
  analyze_skin_condition_image repr_plain sample_env "aGVsbG8="
    (Some (dict_context None (Some sample_directory)))
  = ([], Ok "Skin analysis API not configured. Please contact administrator.")
  /\ analyze_skin_condition_image repr_plain sample_env "aGVsbG8=" None
     = ([], Raise (Exception "AttributeError"
                     "'NoneType' object has no attribute 'request_context'")).
Proof.
  split.
  - apply (analyze_skin_condition_image_without_key repr_plain sample_env
             "aGVsbG8=" (Some (dict_context None (Some sample_directory)))).
    reflexivity.
  - apply (analyze_skin_condition_image_without_key repr_plain sample_env
             "aGVsbG8=" None).
    reflexivity.
Defined.
